(** * factom-api: the JSON-RPC client of [factom/client.py]

    A shallow embedding of the client classes [BaseAPI], [Factomd] and
    [FactomWalletd].  Python values are a small inductive type, the two
    remote daemons and the helpers imported from sibling modules are the
    fields of an environment record, and every method is a function in a
    state-and-exception monad whose state carries the daemons, the random
    generator and a ghost log of the RPC calls made so far. *)

From Stdlib Require Import ZArith String Ascii List Bool Lia.
From stdpp Require Import base tactics option list.
Import ListNotations.

Local Open Scope string_scope.
Local Open Scope Z_scope.

(** ** Python values *)

Set Warnings "-register-all".

(** The values that travel through the client: what [json] decoding
    yields (numbers restricted to integers, as the amounts of this API
    are), plus [bytes], which [unhex] produces. *)
Inductive pyval : Type :=
| PNone
| PBool (b : bool)
| PInt (z : Z)
| PStr (s : string)
| PBytes (b : list Byte.byte)
| PList (l : list pyval)
| PDict (d : list (string * pyval)).

(** A dict is kept as an association list in insertion order. *)
Definition dict : Type := list (string * pyval).

Inductive exn : Type :=
| KeyError (key : string)
| TypeError (what : string)
| IndexError
| ValueError (what : string)
| FactomAPIError (code : Z) (message : pyval) (data : pyval)
| ConnectionError (what : string).

Inductive result (A : Type) : Type :=
| Ok (a : A)
| Raise (e : exn).
Arguments Ok {A} a.
Arguments Raise {A} e.

Definition is_ok {A} (r : result A) : bool :=
  match r with Ok _ => true | Raise _ => false end.

Definition rbind {A B} (r : result A) (k : A -> result B) : result B :=
  match r with Ok a => k a | Raise e => Raise e end.

(** Truth value testing, as [if x:] and [x or y] do it. *)
Definition truthy (v : pyval) : bool :=
  match v with
  | PNone => false
  | PBool b => b
  | PInt z => negb (z =? 0)
  | PStr s => match s with EmptyString => false | String _ _ => true end
  | PBytes b => match b with [] => false | _ :: _ => true end
  | PList l => match l with [] => false | _ :: _ => true end
  | PDict d => match d with [] => false | _ :: _ => true end
  end.

(** [a or b] when [b] is a plain attribute read. *)
Definition py_or (a b : pyval) : pyval := if truthy a then a else b.

Fixpoint assoc (k : string) (d : dict) : option pyval :=
  match d with
  | [] => None
  | (k', v) :: d' => if String.eqb k k' then Some v else assoc k d'
  end.

(** [v[k]] for a string key. *)
Definition getitem (v : pyval) (k : string) : result pyval :=
  match v with
  | PDict d =>
      match assoc k d with
      | Some x => Ok x
      | None => Raise (KeyError k)
      end
  | _ => Raise (TypeError "subscript")
  end.

(** [d[k] = v]. *)
Fixpoint setitem (k : string) (v : pyval) (d : dict) : dict :=
  match d with
  | [] => [(k, v)]
  | (k', v') :: d' =>
      if String.eqb k k' then (k, v) :: d' else (k', v') :: setitem k v d'
  end.

(** [x != s] for a string constant [s]. *)
Definition py_ne_str (x : pyval) (s : string) : bool :=
  match x with
  | PStr t => negb (String.eqb t s)
  | _ => true
  end.

(** [reversed(x)], as the list it iterates over (dicts as of Python 3.8). *)
Definition py_reversed (x : pyval) : result (list pyval) :=
  match x with
  | PList l => Ok (rev l)
  | PStr s => Ok (rev (map (fun c => PStr (String c EmptyString))
                           (list_ascii_of_string s)))
  | PBytes b => Ok (rev (map (fun c => PInt (Z.of_N (Byte.to_N c))) b))
  | PDict d => Ok (rev (map (fun kv => PStr (fst kv)) d))
  | _ => Raise (TypeError "reversed")
  end.

(** ** Module constants *)

Definition NULL_BLOCK : string :=
  "0000000000000000000000000000000000000000000000000000000000000000".

Definition ascii_uppercase : string := "ABCDEFGHIJKLMNOPQRSTUVWXYZ".
Definition digits : string := "0123456789".

(** ** The environment of the client *)

(** What [requests] hands back, as far as [_request] looks at it.  A body
    that is not JSON is [None]: [json()] raises on it. *)
Record response : Type := mkResponse {
  status_code : Z;
  resp_body : option pyval;
}.

Definition json (r : response) : result pyval :=
  match resp_body r with
  | Some v => Ok v
  | None => Raise (ValueError "json")
  end.

(** Everything the module imports and does not define: the HTTP session of
    [session.py] together with the daemons behind it ([Net] is their joint
    state), the error mapper of [exceptions.py], the codecs of [utils.py],
    [urljoin], and the generator behind [random.choices]:
    [random_index g n] stands for [floor(random() * n)]. *)
Record Env : Type := mkEnv {
  Net : Type;
  Session : Type;
  RNG : Type;
  new_session : Session;
  init_basic_auth : Session -> pyval -> pyval -> Session;
  init_tls : Session -> pyval -> Session;
  session_request :
    Session -> string -> string -> pyval -> Net -> result response * Net;
  handle_error_response : response -> result unit;
  hex : pyval -> result pyval;
  unhex : pyval -> result pyval;
  urljoin : string -> string -> string;
  random_index : RNG -> nat -> nat * RNG;
}.

(** ** Ghost log and monad *)

(** One log entry per completed RPC call (endpoint, JSON body sent, what
    [_request] made of the answer) and per [time.sleep]. *)
Inductive event : Type :=
| EvRequest (url : string) (data : pyval) (out : result pyval)
| EvSleep (secs : Z).

Record state (E : Env) : Type := mkState {
  net : Net E;
  rng : RNG E;
  trace : list event;
}.
Arguments mkState {E} _ _ _.
Arguments net {E} _.
Arguments rng {E} _.
Arguments trace {E} _.

Definition M (E : Env) (A : Type) : Type := state E -> result A * state E.

Definition ret {E A} (a : A) : M E A := fun s => (Ok a, s).

Definition raise {E A} (e : exn) : M E A := fun s => (Raise e, s).

Definition bind {E A B} (m : M E A) (k : A -> M E B) : M E B :=
  fun s =>
    match m s with
    | (Ok a, s') => k a s'
    | (Raise e, s') => (Raise e, s')
    end.

Definition lift {E A} (r : result A) : M E A := fun s => (r, s).

Declare Scope py_scope.
Delimit Scope py_scope with py.
Notation "x <- m ;; k" := (bind m (fun x => k))
  (at level 100, m at next level, right associativity) : py_scope.
Notation "m ;; k" := (bind m (fun _ => k))
  (at level 100, right associativity) : py_scope.
Local Open Scope py_scope.

(** The session call, threading the daemons' state. *)
Definition transport {E} (sess : Session E) (verb url : string) (data : pyval)
  : M E response :=
  fun s =>
    let '(r, n') := session_request E sess verb url data (net s) in
    (r, mkState n' (rng s) (trace s)).

(** Run [m] and record the call it completes. *)
Definition logged {E} (url : string) (data : pyval) (m : M E pyval)
  : M E pyval :=
  fun s =>
    let '(out, s') := m s in
    (out, mkState (net s') (rng s') (trace s' ++ [EvRequest url data out])).

Definition sleep {E} (secs : Z) : M E unit :=
  fun s => (Ok tt, mkState (net s) (rng s) (trace s ++ [EvSleep secs])).

(** [floor(random() * n)] *)
Definition draw {E} (n : nat) : M E nat :=
  fun s =>
    let '(i, g') := random_index E (rng s) n in
    (Ok i, mkState (net s) g' (trace s)).

(** ** [class BaseAPI] *)

Record BaseAPI (E : Env) : Type := mkBaseAPI {
  ec_address : pyval;
  fct_address : pyval;
  version : string;
  host : string;
  session : Session E;
}.
Arguments mkBaseAPI {E} _ _ _ _ _.
Arguments ec_address {E} _.
Arguments fct_address {E} _.
Arguments version {E} _.
Arguments host {E} _.
Arguments session {E} _.

Section BaseAPI_methods.
Context {E : Env}.

(** [__init__]; [cls_host] is the class attribute [host] of the subclass. *)
Definition __init__ (cls_host : string) (ec_address fct_address : pyval)
    (host : option string) (version : string)
    (username password certfile : pyval) : BaseAPI E :=
  let host' :=
    match host with
    | Some (String c h) => String c h
    | _ => cls_host
    end in
  let sess := new_session E in
  let sess :=
    if truthy username && truthy password
    then init_basic_auth E sess username password else sess in
  let sess := if truthy certfile then init_tls E sess certfile else sess in
  mkBaseAPI ec_address fct_address version host' sess.

(** [urljoin] is taken to return: a host or version it rejects is left
    out of the model. *)
Definition url (self : BaseAPI E) : string :=
  urljoin E (host self) (version self).

(** [random.choices(population, k=k)]:
    [[population[floor(random() * n)] for i in _repeat(None, k)]]. *)
Fixpoint choices (population : list ascii) (k : nat) : M E (list ascii) :=
  match k with
  | O => ret []
  | S k' =>
      i <- draw (length population) ;;
      c <- lift (match nth_error population i with
                 | Some c => Ok c
                 | None => Raise IndexError
                 end) ;;
      cs <- choices population k' ;;
      ret (c :: cs)
  end.

Definition _xact_name (self : BaseAPI E) : M E string :=
  cs <- choices (list_ascii_of_string (ascii_uppercase ++ digits)) 6 ;;
  ret ("TX_" ++ string_of_list_ascii cs).

Definition _request (self : BaseAPI E) (method : string) (params : pyval)
    (id : Z) : M E pyval :=
  let data :=
    [("jsonrpc", PStr "2.0"); ("id", PInt id); ("method", PStr method)] in
  let data := if truthy params then setitem "params" params data else data in
  logged (url self) (PDict data)
    (resp <- transport (session self) "POST" (url self) (PDict data) ;;
     (if 400 <=? status_code resp
      then lift (handle_error_response E resp) else ret tt) ;;
     body <- lift (json resp) ;;
     lift (getitem body "result")).

End BaseAPI_methods.

(** ** [class Factomd(BaseAPI)] *)

Module Factomd.
Section Methods.
Context {E : Env}.

Definition host : string := "http://localhost:8088".

Definition chain_head (self : BaseAPI E) (chain_id : pyval) : M E pyval :=
  _request self "chain-head" (PDict [("chainid", chain_id)]) 0.

Definition commit_chain (self : BaseAPI E) (message : pyval) : M E pyval :=
  _request self "commit-chain" (PDict [("message", message)]) 0.

Definition commit_entry (self : BaseAPI E) (message : pyval) : M E pyval :=
  _request self "commit-entry" (PDict [("message", message)]) 0.

Definition entry (self : BaseAPI E) (hash : pyval) : M E pyval :=
  _request self "entry" (PDict [("hash", hash)]) 0.

Definition entry_block (self : BaseAPI E) (keymr : pyval) : M E pyval :=
  _request self "entry-block" (PDict [("keymr", keymr)]) 0.

Definition entry_credit_balance (self : BaseAPI E) (address : pyval)
  : M E pyval :=
  _request self "entry-credit-balance"
    (PDict [("address", py_or address (ec_address self))]) 0.

Definition entry_credit_rate (self : BaseAPI E) : M E pyval :=
  _request self "entry-credit-rate" PNone 0.

Definition factoid_balance (self : BaseAPI E) (address : pyval)
  : M E pyval :=
  _request self "factoid-balance"
    (PDict [("address", py_or address (fct_address self))]) 0.

Definition factoid_submit (self : BaseAPI E) (transaction : pyval)
  : M E pyval :=
  _request self "factoid-submit" (PDict [("transaction", transaction)]) 0.

Definition reveal_chain (self : BaseAPI E) (entry : pyval) : M E pyval :=
  _request self "reveal-chain" (PDict [("entry", entry)]) 0.

Definition reveal_entry (self : BaseAPI E) (entry : pyval) : M E pyval :=
  _request self "reveal-entry" (PDict [("entry", entry)]) 0.

(** The body of [for hash in reversed(...)]: fetch one entry and append
    its decoded form to [entries]. *)
Definition read_chain_entry (self : BaseAPI E) (hash : pyval)
    (entries : list pyval) : M E (list pyval) :=
  h <- lift (getitem hash "entryhash") ;;
  e <- entry self h ;;
  c <- lift (getitem e "chainid") ;;
  x <- lift (getitem e "extids") ;;
  x' <- lift (unhex E x) ;;
  y <- lift (getitem e "content") ;;
  y' <- lift (unhex E y) ;;
  ret (entries ++ [PDict [("chainid", c); ("extids", x'); ("content", y')]])%list.

Fixpoint read_chain_for (self : BaseAPI E) (hashes : list pyval)
    (entries : list pyval) : M E (list pyval) :=
  match hashes with
  | [] => ret entries
  | hash :: rest =>
      entries' <- read_chain_entry self hash entries ;;
      read_chain_for self rest entries'
  end.

(** One pass through the body of the [while] loop: the block at [keymr]
    is read and the next [keymr] comes back with the grown list. *)
Definition read_chain_block (self : BaseAPI E) (keymr : pyval)
    (entries : list pyval) : M E (pyval * list pyval) :=
  block <- entry_block self keymr ;;
  el <- lift (getitem block "entrylist") ;;
  hashes <- lift (py_reversed el) ;;
  entries' <- read_chain_for self hashes entries ;;
  header <- lift (getitem block "header") ;;
  prev <- lift (getitem header "prevkeymr") ;;
  ret (prev, entries').

(** [while keymr != NULL_BLOCK: ...]; [fuel] bounds the number of passes
    and [None] means it ran out. *)
Fixpoint read_chain_while (fuel : nat) (self : BaseAPI E) (keymr : pyval)
    (entries : list pyval) (s : state E)
  : option (result (list pyval) * state E) :=
  if py_ne_str keymr NULL_BLOCK then
    match fuel with
    | O => None
    | S fuel' =>
        match read_chain_block self keymr entries s with
        | (Ok (prev, entries'), s') =>
            read_chain_while fuel' self prev entries' s'
        | (Raise e, s') => Some (Raise e, s')
        end
    end
  else Some (Ok entries, s).

Definition read_chain (fuel : nat) (self : BaseAPI E) (chain_id : pyval)
    (s : state E) : option (result pyval * state E) :=
  match (head <- chain_head self chain_id ;;
         lift (getitem head "chainhead")) s with
  | (Ok keymr, s') =>
      match read_chain_while fuel self keymr [] s' with
      | Some (Ok entries, s'') => Some (Ok (PList entries), s'')
      | Some (Raise e, s'') => Some (Raise e, s'')
      | None => None
      end
  | (Raise e, s') => Some (Raise e, s')
  end.

End Methods.
End Factomd.

(** ** [class FactomWalletd(BaseAPI)] *)

Module FactomWalletd.
Section Methods.
Context {E : Env}.

Definition host : string := "http://localhost:8089".

Definition add_ec_output (self : BaseAPI E) (name amount address : pyval)
  : M E pyval :=
  _request self "add-ec-output"
    (PDict [("tx-name", name); ("amount", amount);
            ("address", py_or address (ec_address self))]) 0.

Definition add_fee (self : BaseAPI E) (name address : pyval) : M E pyval :=
  _request self "add-fee"
    (PDict [("tx-name", name);
            ("address", py_or address (fct_address self))]) 0.

Definition add_input (self : BaseAPI E) (name amount address : pyval)
  : M E pyval :=
  _request self "add-input"
    (PDict [("tx-name", name); ("amount", amount);
            ("address", py_or address (fct_address self))]) 0.

Definition add_output (self : BaseAPI E) (name amount address : pyval)
  : M E pyval :=
  _request self "add-output"
    (PDict [("tx-name", name); ("amount", amount); ("address", address)]) 0.

Definition compose_transaction (self : BaseAPI E) (name : pyval)
  : M E pyval :=
  _request self "compose-transaction" (PDict [("tx-name", name)]) 0.

(** [name or self._xact_name()]: the generator runs only for a falsy
    [name]. *)
Definition new_transaction (self : BaseAPI E) (name : pyval) : M E pyval :=
  name' <- (if truthy name then ret name
            else (fresh <- _xact_name self ;; ret (PStr fresh))) ;;
  _request self "new-transaction" (PDict [("tx-name", name')]) 0.

Definition sign_transaction (self : BaseAPI E) (name : pyval) : M E pyval :=
  _request self "sign-transaction" (PDict [("tx-name", name)]) 0.

Definition sub_fee (self : BaseAPI E) (name address : pyval) : M E pyval :=
  _request self "sub-fee" (PDict [("tx-name", name); ("address", address)]) 0.

Definition new_chain (self factomd : BaseAPI E)
    (ext_ids content address : pyval) : M E pyval :=
  x <- lift (hex E ext_ids) ;;
  c <- lift (hex E content) ;;
  calls <- _request self "compose-chain"
    (PDict [("chain",
             PDict [("firstentry", PDict [("extids", x); ("content", c)])]);
            ("ecpub", py_or address (ec_address self))]) 0 ;;
  commit <- lift (getitem calls "commit") ;;
  cparams <- lift (getitem commit "params") ;;
  message <- lift (getitem cparams "message") ;;
  Factomd.commit_chain factomd message ;;
  sleep 2 ;;
  reveal <- lift (getitem calls "reveal") ;;
  rparams <- lift (getitem reveal "params") ;;
  e <- lift (getitem rparams "entry") ;;
  Factomd.reveal_chain factomd e.

Definition new_entry (self factomd : BaseAPI E)
    (chain_id ext_ids content address : pyval) : M E pyval :=
  x <- lift (hex E ext_ids) ;;
  c <- lift (hex E content) ;;
  calls <- _request self "compose-entry"
    (PDict [("entry",
             PDict [("chainid", chain_id); ("extids", x); ("content", c)]);
            ("ecpub", py_or address (ec_address self))]) 0 ;;
  commit <- lift (getitem calls "commit") ;;
  cparams <- lift (getitem commit "params") ;;
  message <- lift (getitem cparams "message") ;;
  Factomd.commit_entry factomd message ;;
  sleep 2 ;;
  reveal <- lift (getitem calls "reveal") ;;
  rparams <- lift (getitem reveal "params") ;;
  e <- lift (getitem rparams "entry") ;;
  Factomd.reveal_entry factomd e.

Definition fct_to_ec (self factomd : BaseAPI E)
    (amount fct_addr ec_addr : pyval) : M E pyval :=
  name <- _xact_name self ;;
  new_transaction self (PStr name) ;;
  add_input self (PStr name) amount fct_addr ;;
  add_ec_output self (PStr name) amount ec_addr ;;
  add_fee self (PStr name) fct_addr ;;
  sign_transaction self (PStr name) ;;
  call <- compose_transaction self (PStr name) ;;
  params <- lift (getitem call "params") ;;
  transaction <- lift (getitem params "transaction") ;;
  Factomd.factoid_submit factomd transaction.

Definition fct_to_fct (self factomd : BaseAPI E)
    (amount fct_to fct_from : pyval) : M E pyval :=
  name <- _xact_name self ;;
  new_transaction self (PStr name) ;;
  add_input self (PStr name) amount fct_from ;;
  add_output self (PStr name) amount fct_to ;;
  add_fee self (PStr name) fct_from ;;
  sign_transaction self (PStr name) ;;
  call <- compose_transaction self (PStr name) ;;
  params <- lift (getitem call "params") ;;
  transaction <- lift (getitem params "transaction") ;;
  Factomd.factoid_submit factomd transaction.

End Methods.
End FactomWalletd.

(** ** A test double for the two daemons *)

(** A small scripted environment on which the definitions above can be
    run: a node that serves one chain of two entry blocks and an empty
    chain, and a wallet that accepts every builder call.  [err_status] is
    the HTTP status the daemons attach to a JSON-RPC error answer. *)
Module Demo.

Definition hex_digit (n : N) : ascii :=
  match String.get (N.to_nat n) "0123456789abcdef" with
  | Some c => c
  | None => "0"%char
  end.

Fixpoint hex_str (s : string) : string :=
  match s with
  | EmptyString => EmptyString
  | String c r =>
      String (hex_digit (N_of_ascii c / 16))
        (String (hex_digit (N_of_ascii c mod 16)) (hex_str r))
  end.

Definition unhex_digit (c : ascii) : option N :=
  let n := N_of_ascii c in
  if ((48 <=? n) && (n <=? 57))%N then Some (n - 48)%N
  else if ((97 <=? n) && (n <=? 102))%N then Some (n - 87)%N
  else if ((65 <=? n) && (n <=? 70))%N then Some (n - 55)%N
  else None.

Fixpoint unhex_str (s : string) : option (list Byte.byte) :=
  match s with
  | EmptyString => Some []
  | String a (String b r) =>
      match unhex_digit a, unhex_digit b, unhex_str r with
      | Some x, Some y, Some bs =>
          Some (byte_of_ascii (ascii_of_N (16 * x + y)) :: bs)
      | _, _, _ => None
      end
  | String _ EmptyString => None
  end.

Fixpoint all_ok (rs : list (result pyval)) : result (list pyval) :=
  match rs with
  | [] => Ok []
  | Ok v :: rs' => rbind (all_ok rs') (fun vs => Ok (v :: vs))
  | Raise e :: _ => Raise e
  end.

Definition hex1 (v : pyval) : result pyval :=
  match v with
  | PStr s => Ok (PStr (hex_str s))
  | _ => Raise (TypeError "hex")
  end.

Definition unhex1 (v : pyval) : result pyval :=
  match v with
  | PStr s =>
      match unhex_str s with
      | Some bs => Ok (PBytes bs)
      | None => Raise (ValueError "unhex")
      end
  | _ => Raise (TypeError "unhex")
  end.

(** The codecs map over a list and convert a single string otherwise. *)
Definition hex (v : pyval) : result pyval :=
  match v with
  | PList l => rbind (all_ok (map hex1 l)) (fun vs => Ok (PList vs))
  | _ => hex1 v
  end.

Definition unhex (v : pyval) : result pyval :=
  match v with
  | PList l => rbind (all_ok (map unhex1 l)) (fun vs => Ok (PList vs))
  | _ => unhex1 v
  end.

(** Modelled from the spec: [handle_error_response] of [exceptions.py],
    which is not part of the sources at hand.  "Every failure propagates
    synchronously to the caller as a typed error carrying the original
    code and message": the error object of the body is turned into the
    exception, with code [-1] when the body has none. *)
Definition handle_error_response (r : response) : result unit :=
  match resp_body r with
  | Some (PDict d) =>
      match assoc "error" d with
      | Some (PDict e) =>
          Raise (FactomAPIError
                   (match assoc "code" e with Some (PInt c) => c | _ => -1 end)
                   (match assoc "message" e with Some m => m | None => PNone end)
                   (match assoc "data" e with Some x => x | None => PDict [] end))
      | _ => Raise (FactomAPIError (-1) PNone (PDict []))
      end
  | _ => Raise (FactomAPIError (-1) PNone (PDict []))
  end.

Definition is_str (v : pyval) (s : string) : bool := negb (py_ne_str v s).

Definition field (v : pyval) (k : string) : pyval :=
  match getitem v k with Ok x => x | Raise _ => PNone end.

Definition answer (v : pyval) : response :=
  mkResponse 200
    (Some (PDict [("jsonrpc", PStr "2.0"); ("id", PInt 0); ("result", v)])).

Definition failure (err_status code : Z) (message : string) : response :=
  mkResponse err_status
    (Some (PDict [("jsonrpc", PStr "2.0"); ("id", PInt 0);
                  ("error", PDict [("code", PInt code);
                                   ("message", PStr message)])])).

Definition keymr1 : string :=
  "1111111111111111111111111111111111111111111111111111111111111111".
Definition keymr2 : string :=
  "2222222222222222222222222222222222222222222222222222222222222222".

Definition block (prev : string) (hashes : list string) : pyval :=
  PDict [("header", PDict [("chainid", PStr "c1"); ("prevkeymr", PStr prev)]);
         ("entrylist",
          PList (map (fun h => PDict [("entryhash", PStr h)]) hashes))].

Definition an_entry (tag body : string) : pyval :=
  PDict [("chainid", PStr "c1");
         ("extids", PList [PStr (hex_str tag)]);
         ("content", PStr (hex_str body))].

(** The node: chain [c1] holds block [keymr1] (entries [h1], [h2]) and,
    on top of it, block [keymr2] (entries [h3], [h4]); chain [c0] is
    empty.  A commit whose message is [void] is refused. *)
Definition node (err_status : Z) (data : pyval) : response :=
  let method := field data "method" in
  let params := field data "params" in
  if is_str method "chain-head" then
    if is_str (field params "chainid") "c1"
    then answer (PDict [("chainhead", PStr keymr2)])
    else if is_str (field params "chainid") "c0"
    then answer (PDict [("chainhead", PStr NULL_BLOCK)])
    else failure err_status (-32009) "Missing Chain Head"
  else if is_str method "entry-block" then
    if is_str (field params "keymr") keymr2
    then answer (block keymr1 ["h3"; "h4"])
    else if is_str (field params "keymr") keymr1
    then answer (block NULL_BLOCK ["h1"; "h2"])
    else failure err_status (-32008) "Block not found"
  else if is_str method "entry" then
    if is_str (field params "hash") "h1" then answer (an_entry "a" "one")
    else if is_str (field params "hash") "h2" then answer (an_entry "b" "two")
    else if is_str (field params "hash") "h3" then answer (an_entry "c" "three")
    else if is_str (field params "hash") "h4" then answer (an_entry "d" "four")
    else failure err_status (-32008) "Entry not found"
  else if is_str method "commit-chain" || is_str method "commit-entry" then
    if is_str (field params "message") "void"
    then failure err_status (-32011) "Repeated Commit"
    else answer (PDict [("message", PStr "Commit Success")])
  else if is_str method "reveal-chain" || is_str method "reveal-entry" then
    answer (PDict [("message", PStr "Entry Reveal Success")])
  else if is_str method "factoid-submit" then
    answer (PDict [("message", PStr "Successfully submitted")])
  else failure err_status (-32601) "Method not found".

(** The wallet: composing for the credit address [EC0] yields the commit
    message [void]; adding an input for the address [FA0] is refused. *)
Definition wallet (err_status : Z) (data : pyval) : response :=
  let method := field data "method" in
  let params := field data "params" in
  if is_str method "compose-chain" || is_str method "compose-entry" then
    answer (PDict [
      ("commit", PDict [("params", PDict [
         ("message",
          if is_str (field params "ecpub") "EC0"
          then PStr "void" else PStr "00c0ffee")])]);
      ("reveal", PDict [("params", PDict [("entry", PStr "00feed")])])])
  else if is_str method "compose-transaction" then
    answer (PDict [("params", PDict [("transaction", PStr "02016b")])])
  else if is_str method "add-input" then
    if is_str (field params "address") "FA0"
    then failure err_status (-32603) "Internal error"
    else answer (PDict [("name", field params "tx-name")])
  else if is_str method "new-transaction" || is_str method "add-output"
          || is_str method "add-ec-output" || is_str method "add-fee"
          || is_str method "sub-fee" || is_str method "sign-transaction" then
    answer (PDict [("name", field params "tx-name")])
  else failure err_status (-32601) "Method not found".

(** The daemons count the requests they have served. *)
Definition session_request (err_status : Z) (sess : unit)
    (verb url : string) (data : pyval) (served : nat)
  : result response * nat :=
  if String.eqb url "http://localhost:8088/v2"
  then (Ok (node err_status data), S served)
  else if String.eqb url "http://localhost:8089/v2"
  then (Ok (wallet err_status data), S served)
  else (Raise (ConnectionError url), served).

Definition env (err_status : Z) : Env :=
  mkEnv nat unit nat tt (fun _ _ _ => tt) (fun _ _ => tt)
    (session_request err_status) handle_error_response hex unhex
    (fun base path => (base ++ "/" ++ path)%string)
    (fun g n => (Nat.modulo (g * g + 11) n, S g)).

Definition factomd (err_status : Z) : BaseAPI (env err_status) :=
  __init__ Factomd.host (PStr "EC1") (PStr "FA1") None "v2"
    PNone PNone PNone.

Definition walletd (err_status : Z) : BaseAPI (env err_status) :=
  __init__ FactomWalletd.host (PStr "EC1") (PStr "FA1") None "v2"
    PNone PNone PNone.

Definition start (err_status : Z) (seed : nat) : state (env err_status) :=
  mkState (0%nat : Net (env err_status)) (seed : RNG (env err_status)) [].

End Demo.

(** ** Vocabulary of the statements *)

(** The JSON body [_request] posts for a method, its params and an id. *)
Definition body_of (method : string) (params : pyval) (id : Z) : pyval :=
  PDict (if truthy params
         then [("jsonrpc", PStr "2.0"); ("id", PInt id);
               ("method", PStr method); ("params", params)]
         else [("jsonrpc", PStr "2.0"); ("id", PInt id);
               ("method", PStr method)]).

(** What [_request] makes of the session's answer. *)
Definition interpret (E : Env) (r : result response) : result pyval :=
  rbind r (fun resp =>
  rbind (if 400 <=? status_code resp
         then handle_error_response E resp else Ok tt) (fun _ =>
  rbind (json resp) (fun body => getitem body "result"))).

Definition ev_method (e : event) : option string :=
  match e with
  | EvRequest _ (PDict d) _ =>
      match assoc "method" d with
      | Some (PStr m) => Some m
      | _ => None
      end
  | _ => None
  end.

Definition ev_param (key : string) (e : event) : option pyval :=
  match e with
  | EvRequest _ (PDict d) _ =>
      match assoc "params" d with
      | Some (PDict ps) => assoc key ps
      | _ => None
      end
  | _ => None
  end.

Definition ev_error (e : event) : option exn :=
  match e with
  | EvRequest _ _ (Raise x) => Some x
  | _ => None
  end.

(** Running [m] from [s] appends exactly [evs] to the log. *)
Definition emits {E A} (m : M E A) (s : state E) (evs : list event) : Prop :=
  trace (snd (m s)) = (trace s ++ evs)%list.

(** The fixed order of a transfer workflow; [output] is the method that
    adds the output. *)
Definition transfer_order (output : string) : list string :=
  ["new-transaction"; "add-input"; output; "add-fee"; "sign-transaction";
   "compose-transaction"; "factoid-submit"].


(** The wallet calls that work on a named transaction under construction. *)
Definition builder_methods : list string :=
  ["new-transaction"; "add-input"; "add-output"; "add-ec-output"; "add-fee";
   "sign-transaction"; "compose-transaction"].

Definition named_by (name : string) (evs : list event) : Prop :=
  forall e m,
    In e evs -> ev_method e = Some m -> In m builder_methods ->
    ev_param "tx-name" e = Some (PStr name).

(** The first call of [evs] is [method], and its params carry [v] under
    [key]. *)
Definition first_call_sends (method key : string) (v : pyval)
    (evs : list event) : Prop :=
  exists e rest,
    evs = e :: rest /\ ev_method e = Some method /\ ev_param key e = Some v.

Definition is_upper_or_digit (c : ascii) : bool :=
  let n := N_of_ascii c in
  (((65 <=? n) && (n <=? 90)) || ((48 <=? n) && (n <=? 57)))%N.

(** The body of an answer holds a JSON-RPC error object. *)
Definition carries_error (r : response) : Prop :=
  exists d e, resp_body r = Some (PDict d) /\ assoc "error" d = Some e.

(** A chain as the node holds it: each entry with the hash it is filed
    under and its chain id, external ids and content as the client hands
    them out; each entry block with its key and its entries, oldest
    first. *)
Record entry_rec : Type := mkEntry {
  e_hash : pyval;
  e_chainid : pyval;
  e_extids : pyval;
  e_content : pyval;
}.

Record block_rec : Type := mkBlock {
  b_keymr : string;
  b_entries : list entry_rec;
}.

Definition decoded (e : entry_rec) : pyval :=
  PDict [("chainid", e_chainid e); ("extids", e_extids e);
         ("content", e_content e)].

(** The key of the newest block of a chain given newest block first; the
    sentinel when there is none. *)
Definition head_keymr (blocks : list block_rec) : string :=
  match blocks with
  | [] => NULL_BLOCK
  | b :: _ => b_keymr b
  end.

(** All entries of a chain given newest block first, oldest entry first. *)
Definition chronological (blocks : list block_rec) : list entry_rec :=
  flat_map b_entries (rev blocks).

Section Statements.
Context {E : Env}.

(** In state [n] the daemon behind [self] answers [method] with a status
    below 400 and the result [v], and moves to [n']. *)
Definition replies (self : BaseAPI E) (n : Net E) (method : string)
    (params v : pyval) (n' : Net E) : Prop :=
  exists resp body,
    session_request E (session self) "POST" (url self)
      (body_of method params 0) n = (Ok resp, n') /\
    status_code resp < 400 /\
    resp_body resp = Some body /\
    getitem body "result" = Ok v.

(** As long as the daemon is in a state of [I], it serves the entry [e]
    under its hash, hex-encoded, and stays in [I]. *)
Definition serves_entry (self : BaseAPI E) (I : Net E -> Prop)
    (e : entry_rec) : Prop :=
  forall n, I n ->
    exists v n' x y,
      replies self n "entry" (PDict [("hash", e_hash e)]) v n' /\ I n' /\
      getitem v "chainid" = Ok (e_chainid e) /\
      getitem v "extids" = Ok x /\ unhex E x = Ok (e_extids e) /\
      getitem v "content" = Ok y /\ unhex E y = Ok (e_content e).

(** It serves the block [b]: under the key of [b], which is not the
    sentinel, an entry list that refers to the entries of [b] in their
    order, and a header whose [prevkeymr] is [prev]. *)
Definition serves_block (self : BaseAPI E) (I : Net E -> Prop)
    (b : block_rec) (prev : string) : Prop :=
  b_keymr b <> NULL_BLOCK /\
  (forall n, I n ->
     exists v n' refs header,
       replies self n "entry-block" (PDict [("keymr", PStr (b_keymr b))])
         v n' /\ I n' /\
       getitem v "entrylist" = Ok (PList refs) /\
       Forall2 (fun r e => getitem r "entryhash" = Ok (e_hash e))
         refs (b_entries b) /\
       getitem v "header" = Ok header /\
       getitem header "prevkeymr" = Ok (PStr prev)) /\
  Forall (serves_entry self I) (b_entries b).

(** The blocks, newest first, are linked through [prevkeymr] down to the
    sentinel. *)
Fixpoint linked (self : BaseAPI E) (I : Net E -> Prop)
    (blocks : list block_rec) : Prop :=
  match blocks with
  | [] => True
  | b :: older =>
      serves_block self I b (head_keymr older) /\ linked self I older
  end.

Definition serves_chain (self : BaseAPI E) (I : Net E -> Prop)
    (chain_id : pyval) (blocks : list block_rec) : Prop :=
  (forall n, I n ->
     exists v n',
       replies self n "chain-head" (PDict [("chainid", chain_id)]) v n' /\
       I n' /\
       getitem v "chainhead" = Ok (PStr (head_keymr blocks))) /\
  linked self I blocks.

(** The reading of a response under which a request fails with the
    mapper's error exactly when the status is at least 400 or the body
    holds an error object, and yields the body's [result] otherwise. *)
Definition fails_iff_status_or_error_object (self : BaseAPI E)
    (method : string) (params : pyval) (id : Z) (s : state E) : Prop :=
  forall resp n',
    session_request E (session self) "POST" (url self)
      (body_of method params id) (net s) = (Ok resp, n') ->
    ((400 <= status_code resp \/ carries_error resp) <->
     (exists e, handle_error_response E resp = Raise e /\
                fst (_request self method params id s) = Raise e)) /\
    (~ (400 <= status_code resp \/ carries_error resp) ->
     fst (_request self method params id s) =
     rbind (json resp) (fun body => getitem body "result")).

(** The contract of the generator: [floor(random() * n)] lies in
    [range(n)]. *)
Definition rng_in_range : Prop :=
  forall (g : RNG E) (n : nat),
    (0 < n)%nat -> (fst (random_index E g n) < n)%nat.


(** Running [m] from [s], the first call made is [method] with [v]
    under [key]. *)
Definition sends {A} (m : M E A) (s : state E) (method key : string)
    (v : pyval) : Prop :=
  exists evs, emits m s evs /\ first_call_sends method key v evs.

(** The reading of the address fallback under which a falsy argument is
    replaced by the configured default and, besides, no call ever
    carries the empty string as its address. *)
Definition falsy_address_replaced (self : BaseAPI E) (address : pyval)
    (s : state E) : Prop :=
  truthy address = false ->
  exists evs,
    emits (Factomd.entry_credit_balance self address) s evs /\
    first_call_sends "entry-credit-balance" "address" (ec_address self)
      evs /\
    forall e, In e evs -> ev_param "address" e <> Some (PStr "").

End Statements.
Arguments rng_in_range : clear implicits.

(** ** Runs of the test double *)

(** The log of a [new_chain] paid from the credit address [EC0]. *)
Definition demo_new_chain_log : list event :=
  Eval vm_compute in
    trace (snd (FactomWalletd.new_chain (Demo.walletd 400) (Demo.factomd 400)
                  (PList [PStr "a"]) (PStr "hello") (PStr "EC0")
                  (Demo.start 400 0))).

(** A client configured with empty default addresses. *)
Definition demo_unset : BaseAPI (Demo.env 400) :=
  __init__ Factomd.host (PStr "") (PStr "") None "v2" PNone PNone PNone.

(** The chain [c1] of the test double, newest block first. *)
Definition demo_entry (h tag body : string) : entry_rec :=
  mkEntry (PStr h) (PStr "c1")
    (PList [PBytes (map byte_of_ascii (list_ascii_of_string tag))])
    (PBytes (map byte_of_ascii (list_ascii_of_string body))).

Definition demo_blocks : list block_rec :=
  [mkBlock Demo.keymr2 [demo_entry "h3" "c" "three"; demo_entry "h4" "d" "four"];
   mkBlock Demo.keymr1 [demo_entry "h1" "a" "one"; demo_entry "h2" "b" "two"]].

(** ** Further vocabulary *)

(** [v[k1][k2]...], stopping at the first subscript that raises. *)
Definition getpath (v : pyval) (keys : list string) : result pyval :=
  fold_left (fun r k => rbind r (fun x => getitem x k)) keys (Ok v).

(** Method and params of a call that went through. *)
Definition ev_call (e : event) : option (string * pyval) :=
  match e with
  | EvRequest _ (PDict d) (Ok _) =>
      match assoc "method" d, assoc "params" d with
      | Some (PStr m), Some ps => Some (m, ps)
      | _, _ => None
      end
  | _ => None
  end.

Definition ev_url (e : event) : option string :=
  match e with
  | EvRequest u _ _ => Some u
  | EvSleep _ => None
  end.


(** A call of [evs] that failed is the last entry of [evs], and its error
    is the outcome [r]. *)
Definition stops_at_failure {A} (r : result A) (evs : list event) : Prop :=
  forall (i : nat) e x,
    evs !! i = Some e -> ev_error e = Some x ->
    S i = length evs /\ r = Raise x.


(** Every call of [evs] to [method] carries each of the params [kvs]. *)
Definition carries (method : string) (kvs : list (string * pyval))
    (evs : list event) : Prop :=
  forall e,
    In e evs -> ev_method e = Some method ->
    Forall (fun kv => ev_param (fst kv) e = Some (snd kv)) kvs.

(** The three read-only methods [read_chain] is built from. *)
Definition lookup_methods : list string :=
  ["chain-head"; "entry-block"; "entry"].

(** The calls [read_chain] is expected to make for a chain given newest
    block first: the head, then each block followed by its entries from
    the newest to the oldest. *)
Definition expected_lookups (chain_id : pyval) (blocks : list block_rec)
  : list (option (string * pyval)) :=
  Some ("chain-head", PDict [("chainid", chain_id)]) ::
  flat_map
    (fun b =>
       Some ("entry-block", PDict [("keymr", PStr (b_keymr b))]) ::
       map (fun e => Some ("entry", PDict [("hash", e_hash e)]))
         (rev (b_entries b)))
    blocks.

(** The key of the first of [blocks], or [last] when there is none. *)
Definition key_or (last : string) (blocks : list block_rec) : string :=
  match blocks with
  | [] => last
  | b :: _ => b_keymr b
  end.

Section MoreStatements.
Context {E : Env}.

(** [e] is a call of one of the read-only methods to the endpoint of
    [self]. *)
Definition lookup_of (self : BaseAPI E) (e : event) : Prop :=
  exists data out m,
    e = EvRequest (url self) data out /\
    ev_method e = Some m /\ In m lookup_methods.

(** Whatever state it starts in, [m] only appends read-only calls to the
    log, leaves the generator alone, and ends with the error of its last
    call if one of its calls failed. *)
Definition reads {A} (self : BaseAPI E) (m : M E A) : Prop :=
  forall s,
    exists evs,
      trace (snd (m s)) = (trace s ++ evs)%list /\
      rng (snd (m s)) = rng s /\
      Forall (lookup_of self) evs /\
      stops_at_failure (fst (m s)) evs.

(** The blocks are linked through [prevkeymr] like [linked], but the
    oldest one points on to the key [last]. *)
Fixpoint linked_to (self : BaseAPI E) (I : Net E -> Prop)
    (blocks : list block_rec) (last : string) : Prop :=
  match blocks with
  | [] => True
  | b :: older =>
      serves_block self I b (key_or last older) /\
      linked_to self I older last
  end.

End MoreStatements.

(** A node whose only entry block names itself as its predecessor. *)
Definition loop_env : Env :=
  mkEnv unit unit unit tt (fun _ _ _ => tt) (fun _ _ => tt)
    (fun _ _ _ _ n =>
       (Ok (Demo.answer
              (PDict [("chainhead", PStr Demo.keymr1);
                      ("header", PDict [("prevkeymr", PStr Demo.keymr1)]);
                      ("entrylist", PList [])])), n))
    Demo.handle_error_response Demo.hex Demo.unhex
    (fun base path => (base ++ "/" ++ path)%string)
    (fun g n => (0%nat, g)).

Definition loop_node : BaseAPI loop_env :=
  __init__ Factomd.host PNone PNone None "v2" PNone PNone PNone.

(** The run a fuelled computation came to, [d] if it ran out. *)
Definition run_of {A} (o : option A) (d : A) : A :=
  match o with
  | Some run => run
  | None => d
  end.

Definition came_to_end {A} (o : option A) : bool :=
  match o with
  | Some _ => true
  | None => false
  end.

(** A traversal on the test double, run to its end: that of a chain the
    node does not know. *)
Definition demo_read_unknown : result pyval * state (Demo.env 400) :=
  run_of (Factomd.read_chain 2 (Demo.factomd 400) (PStr "c9")
            (Demo.start 400 0))
    (Raise IndexError, Demo.start 400 0).

(** ** How far a workflow gets *)




(** A wallet and node in one that answer every call with a composed
    commit part and no reveal part. *)
Definition half_env : Env :=
  mkEnv unit unit unit tt (fun _ _ _ => tt) (fun _ _ => tt)
    (fun _ _ _ _ n =>
       (Ok (Demo.answer
              (PDict [("commit",
                       PDict [("params",
                               PDict [("message", PStr "00c0ffee")])])])),
        n))
    Demo.handle_error_response Demo.hex Demo.unhex
    (fun base path => (base ++ "/" ++ path)%string)
    (fun g n => (0%nat, g)).

Definition half_wallet : BaseAPI half_env :=
  __init__ FactomWalletd.host (PStr "EC1") (PStr "FA1") None "v2"
    PNone PNone PNone.

Definition half_node : BaseAPI half_env :=
  __init__ Factomd.host (PStr "EC1") (PStr "FA1") None "v2"
    PNone PNone PNone.

(** ** A traversal cut short *)

Section Passes.
Context {E : Env}.

(** The state the [while] loop of [read_chain] is in after at most [n]
    passes: where [read_chain_while] stops with a result or gives up, this
    keeps the state reached. *)
Fixpoint read_chain_passes (n : nat) (self : BaseAPI E) (keymr : pyval)
    (entries : list pyval) (s : state E) : state E :=
  if py_ne_str keymr NULL_BLOCK then
    match n with
    | O => s
    | S n' =>
        match Factomd.read_chain_block self keymr entries s with
        | (Ok (prev, entries'), s') =>
            read_chain_passes n' self prev entries' s'
        | (Raise _, s') => s'
        end
    end
  else s.

(** The state [read_chain] is in after the head lookup and at most [n]
    passes of its loop. *)
Definition read_chain_upto (n : nat) (self : BaseAPI E) (chain_id : pyval)
    (s : state E) : state E :=
  match (head <- Factomd.chain_head self chain_id ;;
         lift (getitem head "chainhead")) s with
  | (Ok keymr, s') => read_chain_passes n self keymr [] s'
  | (Raise _, s') => s'
  end.

End Passes.

(** ** [_request] *)

Section Request.
Context {E : Env}.
Implicit Types (self : BaseAPI E) (s : state E).

Lemma _request_run self method params id s :
  _request self method params id s =
  let rr := session_request E (session self) "POST" (url self)
              (body_of method params id) (net s) in
  let out := interpret E (fst rr) in
  (out, mkState (snd rr) (rng s)
          (trace s ++ [EvRequest (url self) (body_of method params id) out])).
Proof.
  unfold _request, logged, bind, transport, lift, ret, body_of, interpret.
  destruct (truthy params); cbn [setitem String.eqb Ascii.eqb Bool.eqb];
    destruct (session_request _ _ _ _ _ _) as [[resp | e] n']; cbn;
    try reflexivity;
    destruct (400 <=? status_code resp);
    try destruct (handle_error_response E resp) as [[] | e]; cbn;
    try reflexivity;
    destruct (json resp); reflexivity.
Qed.

Lemma _request_shape self method params id s :
  exists out n',
    _request self method params id s =
    (out, mkState n' (rng s)
            (trace s ++ [EvRequest (url self) (body_of method params id) out])).
Proof. rewrite _request_run. cbv zeta. eauto. Qed.

End Request.

Section RequestClaims.
Context {E : Env}.
Implicit Types (self : BaseAPI E) (s : state E).

(** C8: the body of every request holds [jsonrpc = "2.0"], the integer
    [id] and the method name; [params] is left out exactly when it is
    empty (for a dict: when it has no key), and is sent unchanged
    otherwise.  The body logged is the one handed to the session. *)
Theorem request_body_fields self method params id s :
  exists d out,
    emits (_request self method params id) s
      [EvRequest (url self) (PDict d) out] /\
    net (snd (_request self method params id s)) =
      snd (session_request E (session self) "POST" (url self) (PDict d)
             (net s)) /\
    assoc "jsonrpc" d = Some (PStr "2.0") /\
    assoc "id" d = Some (PInt id) /\
    assoc "method" d = Some (PStr method) /\
    (assoc "params" d = None <-> truthy params = false) /\
    (truthy params = true -> assoc "params" d = Some params) /\
    (forall ps, params = PDict ps -> (assoc "params" d = None <-> ps = [])).
Proof.
  unfold emits. rewrite _request_run. cbv zeta. unfold body_of.
  destruct (truthy params) eqn:Ht; eexists _, _;
    (split; [reflexivity |]); (split; [reflexivity |]);
    (split; [reflexivity |]); (split; [reflexivity |]);
    (split; [reflexivity |]); cbn.
  - split; [split; congruence |].
    split; [reflexivity |].
    intros ps ->. destruct ps; cbn in Ht; split; congruence.
  - split; [split; congruence |].
    split; [congruence |].
    intros ps ->. destruct ps; cbn in Ht; split; congruence.
Qed.

(** C6, as the client does it: with a status below 400 the outcome is
    the [result] member of the body, whatever else the body holds (a body
    without [result] raises [KeyError], one that is not JSON raises the
    decoder's error); with a status of 400 or more the error raised by
    the mapper is the outcome. *)
Theorem request_outcome_by_status self method params id s resp n' :
  session_request E (session self) "POST" (url self)
    (body_of method params id) (net s) = (Ok resp, n') ->
  (status_code resp < 400 ->
   fst (_request self method params id s) =
   rbind (json resp) (fun body => getitem body "result")) /\
  (400 <= status_code resp ->
   forall e, handle_error_response E resp = Raise e ->
             fst (_request self method params id s) = Raise e).
Proof.
  intros Hreq. rewrite _request_run, Hreq. cbv zeta. cbn [fst interpret rbind].
  split.
  - intros Hlt. apply Z.leb_gt in Hlt. rewrite Hlt. reflexivity.
  - intros Hge e He. apply Z.leb_le in Hge. rewrite Hge, He. reflexivity.
Qed.

End RequestClaims.

(** C6, read literally, does not hold: a daemon that reports a JSON-RPC
    error under HTTP status 200 makes [_request] raise [KeyError] for the
    missing [result], not the mapper's error for the error object. *)
Lemma error_object_under_status_200 :
  ~ fails_iff_status_or_error_object (Demo.factomd 200) "chain-head"
      (PDict [("chainid", PStr "c9")]) 0 (Demo.start 200 0).
Proof.
  intros H.
  destruct (H _ _ eq_refl) as [[Hfails _] _].
  destruct Hfails as (e & Hmap & Hout).
  - right. eexists _, _. split; reflexivity.
  - vm_compute in Hmap. vm_compute in Hout. congruence.
Qed.

Lemma request_outcome_by_status_witness :
  fst (_request (Demo.factomd 400) "chain-head"
         (PDict [("chainid", PStr "c1")]) 0 (Demo.start 400 0)) =
    Ok (PDict [("chainhead", PStr Demo.keymr2)]) /\
  fst (_request (Demo.factomd 400) "chain-head"
         (PDict [("chainid", PStr "c9")]) 0 (Demo.start 400 0)) =
    Raise (FactomAPIError (-32009) (PStr "Missing Chain Head") (PDict [])).
Proof.
  split.
  - apply (request_outcome_by_status (Demo.factomd 400) "chain-head"
             (PDict [("chainid", PStr "c1")]) 0 (Demo.start 400 0)
             _ _ eq_refl).
    vm_compute. reflexivity.
  - apply (request_outcome_by_status (Demo.factomd 400) "chain-head"
             (PDict [("chainid", PStr "c9")]) 0 (Demo.start 400 0)
             _ _ eq_refl).
    + vm_compute. discriminate.
    + reflexivity.
Defined.

(** ** The sentinel *)

(** C5, as written, gives the sentinel 66 characters; the constant of the
    module has fewer. *)
Lemma null_block_not_66_chars : String.length NULL_BLOCK <> 66%nat.
Proof. vm_compute. discriminate. Qed.

(** C5, as the module has it: the sentinel is the all-zero hex string of
    64 characters; the traversal stops at it without using a pass, and it
    is the only value of [keymr] that stops it. *)
Theorem null_block_sentinel :
  String.length NULL_BLOCK = 64%nat /\
  Forall (fun c => c = "0"%char) (list_ascii_of_string NULL_BLOCK) /\
  (forall (E : Env) fuel (self : BaseAPI E) entries s,
      Factomd.read_chain_while fuel self (PStr NULL_BLOCK) entries s =
      Some (Ok entries, s)) /\
  (forall keymr, py_ne_str keymr NULL_BLOCK = false <-> keymr = PStr NULL_BLOCK).
Proof.
  split; [reflexivity |].
  split; [vm_compute; repeat constructor |].
  split.
  - intros E fuel self entries s. destruct fuel; reflexivity.
  - intros keymr. split.
    + destruct keymr; cbn [py_ne_str]; try discriminate.
      intros H. apply negb_false_iff, String.eqb_eq in H. congruence.
    + intros ->. reflexivity.
Qed.

(** ** Transaction names *)

Section Names.
Context {E : Env}.
Implicit Types (self : BaseAPI E) (s : state E).

Lemma choices_frame population k s :
  exists r g', choices population k s = (r, mkState (net s) g' (trace s)).
Proof.
  revert s. induction k as [| k IH]; intros s; cbn [choices].
  - exists (Ok []), (rng s). destruct s; reflexivity.
  - unfold bind, draw, lift.
    destruct (random_index E (rng s) (length population)) as [i g1].
    destruct (nth_error population i) as [c |]; [| eauto].
    destruct (IH (mkState (net s) g1 (trace s))) as (r & g2 & ->).
    cbn [net trace]. destruct r; unfold ret; eauto.
Qed.

Lemma choices_in_range population k s :
  rng_in_range E -> population <> [] ->
  exists cs g',
    choices population k s = (Ok cs, mkState (net s) g' (trace s)) /\
    length cs = k /\ Forall (fun c => In c population) cs.
Proof.
  intros Hrng Hne. revert s. induction k as [| k IH]; intros s; cbn [choices].
  - exists [], (rng s). destruct s; repeat split; constructor.
  - unfold bind, draw, lift.
    pose proof (Hrng (rng s) (length population)) as Hlt.
    destruct (random_index E (rng s) (length population)) as [i g1].
    cbn [fst] in Hlt.
    destruct (nth_error population i) as [c |] eqn:Hnth.
    + destruct (IH (mkState (net s) g1 (trace s)))
        as (cs & g2 & -> & Hlen & Hall).
      cbn [net trace]. unfold ret. exists (c :: cs), g2.
      repeat split; [cbn; congruence |].
      constructor; [eapply nth_error_In; eassumption | assumption].
    + apply nth_error_None in Hnth.
      destruct population; [congruence | cbn in Hlt, Hnth; lia].
Qed.

(** The name, when one is produced, starts with the tag, and producing
    it touches neither the daemons nor the log. *)
Lemma _xact_name_frame self s :
  exists r g',
    _xact_name self s = (r, mkState (net s) g' (trace s)) /\
    forall name, r = Ok name -> exists suffix, name = "TX_" ++ suffix.
Proof.
  unfold _xact_name, bind.
  destruct (choices_frame
              (list_ascii_of_string (ascii_uppercase ++ digits)) 6 s)
    as (r & g' & ->).
  destruct r as [cs | e]; unfold ret; eexists _, _; split;
    try reflexivity; intros name [= <-]; eauto.
Qed.

(** C7: under the generator's contract, [_xact_name] returns the tag
    [TX_] followed by six characters, each an uppercase letter or a
    digit; the name is not empty. *)
Theorem xact_name_format self s :
  rng_in_range E ->
  exists suffix s',
    _xact_name self s = (Ok ("TX_" ++ suffix), s') /\
    "TX_" ++ suffix <> "" /\
    String.length suffix = 6%nat /\
    Forall (fun c => is_upper_or_digit c = true)
      (list_ascii_of_string suffix).
Proof.
  intros Hrng. unfold _xact_name, bind.
  destruct (choices_in_range
              (list_ascii_of_string (ascii_uppercase ++ digits)) 6 s Hrng)
    as (cs & g' & -> & Hlen & Hall); [discriminate |].
  unfold ret. exists (string_of_list_ascii cs). eexists.
  split; [reflexivity |]. split; [discriminate |].
  rewrite list_ascii_of_string_of_list_ascii.
  split.
  - rewrite <- Hlen. clear. induction cs; cbn; congruence.
  - eapply Forall_impl; [exact Hall |].
    intros c Hin. cbn in Hin.
    repeat (destruct Hin as [<- | Hin]; [reflexivity |]).
    destruct Hin.
Qed.

End Names.

Lemma demo_rng_in_range : rng_in_range (Demo.env 400).
Proof.
  intros g n Hn. cbn. apply Nat.mod_upper_bound. lia.
Defined.

Lemma xact_name_format_witness :
  exists suffix s',
    _xact_name (Demo.walletd 400) (Demo.start 400 3) =
      (Ok ("TX_" ++ suffix), s') /\
    "TX_" ++ suffix <> "" /\
    String.length suffix = 6%nat /\
    Forall (fun c => is_upper_or_digit c = true) (list_ascii_of_string suffix).
Proof.
  exact (xact_name_format (Demo.walletd 400) (Demo.start 400 3)
           demo_rng_in_range).
Defined.

(** ** The transfer workflows *)

Section Transfers.
Context {E : Env}.
Implicit Types (self factomd : BaseAPI E) (s : state E).

(** Run the next [_request] of the goal and split on how it ended. *)
Ltac step :=
  match goal with
  | |- context [_request ?self ?m ?p ?i ?st] =>
      let out := fresh "out" in
      let n := fresh "n" in
      let H := fresh "H" in
      destruct (_request_shape self m p i st) as (out & n & H);
      rewrite H; clear H;
      destruct out as [? | ?]; cbn [fst snd trace net rng lift ret getitem]
  end.

(** Name the calls a finished run has appended to the log. *)
Ltac collect :=
  cbn [fst snd trace rng]; rewrite <- ?app_assoc; cbn [app];
  first [ exists []; split; [symmetry; apply app_nil_r |]
        | eexists; split; [reflexivity |] ].





Ltac named :=
  collect;
  split; [| reflexivity];
  let e := fresh "e" in
  let m := fresh "m" in
  let Hin := fresh "Hin" in
  let Hm := fresh "Hm" in
  let Hb := fresh "Hb" in
  intros e m Hin Hm Hb; cbn in Hin;
  repeat (destruct Hin as [<- | Hin];
          [first [ reflexivity
                 | cbn in Hm; injection Hm as <-; cbn in Hb;
                   intuition discriminate ] |]);
  destruct Hin.

(** Walk through a transfer workflow, closing every way it can end with
    [close]. *)
Ltac transfer close :=
  unfold emits, FactomWalletd.fct_to_ec, FactomWalletd.fct_to_fct,
    FactomWalletd.new_transaction, FactomWalletd.add_input,
    FactomWalletd.add_ec_output, FactomWalletd.add_output,
    FactomWalletd.add_fee, FactomWalletd.sign_transaction,
    FactomWalletd.compose_transaction, Factomd.factoid_submit, bind;
  match goal with
  | |- context [_xact_name ?self ?s] =>
      let r := fresh "r" in
      let g := fresh "g" in
      let Hname := fresh "Hname" in
      destruct (_xact_name_frame self s) as (r & g & -> & Hname);
      destruct r as [? | ?]; [| close];
      destruct (Hname _ eq_refl) as [? ->]; clear Hname;
      cbn [truthy append ret]
  end;
  do 6 (step; [| close]);
  match goal with
  | |- context [getitem ?call "params"] =>
      destruct (getitem call "params") as [? | ?] eqn:?; [| close]
  end;
  match goal with
  | |- context [getitem ?params "transaction"] =>
      destruct (getitem params "transaction") as [? | ?] eqn:?; [| close]
  end;
  step; close.


(** C10: every builder call of one run of [fct_to_ec] or [fct_to_fct]
    carries, as [tx-name], the name [_xact_name] produced at the start of
    the run, and the generator is not run a second time; when no name
    could be produced, no call is made. *)
Theorem transfer_uses_one_name self factomd amount a b s :
  (exists evs,
      emits (FactomWalletd.fct_to_ec self factomd amount a b) s evs /\
      match _xact_name self s with
      | (Ok name, s1) =>
          named_by name evs /\
          rng (snd (FactomWalletd.fct_to_ec self factomd amount a b s)) =
          rng s1
      | (Raise _, _) => evs = []
      end) /\
  (exists evs,
      emits (FactomWalletd.fct_to_fct self factomd amount a b) s evs /\
      match _xact_name self s with
      | (Ok name, s1) =>
          named_by name evs /\
          rng (snd (FactomWalletd.fct_to_fct self factomd amount a b s)) =
          rng s1
      | (Raise _, _) => evs = []
      end).
Proof.
  split; transfer ltac:(first [ collect; reflexivity | named ]).
Qed.

End Transfers.

(** ** Chain and entry creation *)

Section Creation.
Context {E : Env}.
Implicit Types (self factomd : BaseAPI E) (s : state E).

Ltac step_in H :=
  match type of H with
  | context [_request ?self ?m ?p ?i ?st] =>
      let out := fresh "out" in
      let n := fresh "n" in
      let Hrun := fresh "Hrun" in
      destruct (_request_shape self m p i st) as (out & n & Hrun);
      rewrite Hrun in *; clear Hrun;
      destruct out as [? | ?];
      cbn [fst snd trace net rng lift ret getitem] in *
  end.

Ltac lookup_in H key :=
  match type of H with
  | context [getitem ?v key] =>
      destruct (getitem v key) as [? | ?];
      cbn [fst snd trace net rng] in *
  end.

(** From [trace s ++ e1 :: ... = trace s ++ evs], read off [evs] and go
    through its members. *)
Ltac members H Hin :=
  rewrite <- ?app_assoc in H; cbn [app] in H;
  first [ apply app_inv_head in H
        | rewrite <- (app_nil_r (trace _)) in H at 1;
          apply app_inv_head in H ];
  subst; cbn [In] in Hin.

(** C3: in a run of [new_chain] whose log shows a commit-chain call that
    failed, the outcome of [new_chain] is the error of that call, and
    the run has made no reveal-chain call and has not slept. *)
Theorem new_chain_commit_failure self factomd ext_ids content address s
    evs url data err :
  emits (FactomWalletd.new_chain self factomd ext_ids content address)
    s evs ->
  In (EvRequest url data (Raise err)) evs ->
  ev_method (EvRequest url data (Raise err)) = Some "commit-chain" ->
  fst (FactomWalletd.new_chain self factomd ext_ids content address s) =
    Raise err /\
  (forall e, In e evs -> ev_method e <> Some "reveal-chain") /\
  (forall secs, ~ In (EvSleep secs) evs).
Proof.
  unfold emits, FactomWalletd.new_chain, Factomd.commit_chain,
    Factomd.reveal_chain, bind, lift, sleep.
  intros Hemits Hin Hm.
  destruct (hex E ext_ids) as [x | e1];
    [| members Hemits Hin; contradiction].
  destruct (hex E content) as [c | e2];
    [| members Hemits Hin; contradiction].
  step_in Hemits.
  2: { members Hemits Hin. destruct Hin as [Heq | []].
       injection Heq as <- <- <-. cbn in Hm. discriminate. }
  lookup_in Hemits "commit".
  2: { members Hemits Hin. destruct Hin as [Heq | []]. discriminate. }
  lookup_in Hemits "params".
  2: { members Hemits Hin. destruct Hin as [Heq | []]. discriminate. }
  lookup_in Hemits "message".
  2: { members Hemits Hin. destruct Hin as [Heq | []]. discriminate. }
  step_in Hemits.
  - (* the commit went through: no failed commit-chain call in the log *)
    exfalso.
    lookup_in Hemits "reveal";
      [| members Hemits Hin; intuition discriminate].
    lookup_in Hemits "params";
      [| members Hemits Hin; intuition discriminate].
    lookup_in Hemits "entry";
      [| members Hemits Hin; intuition discriminate].
    step_in Hemits; members Hemits Hin;
      destruct Hin as [Heq | [Heq | [Heq | [Heq | []]]]];
      try discriminate;
      injection Heq as <- <- <-; cbn in Hm; discriminate.
  - (* the commit failed *)
    members Hemits Hin.
    destruct Hin as [Heq | [Heq | []]].
    + injection Heq as <- <- <-. cbn in Hm. discriminate.
    + injection Heq as <- <- <-.
      split; [reflexivity |]. split.
      * intros ev [<- | [<- | []]]; cbn; discriminate.
      * intros secs [Heq | [Heq | []]]; discriminate.
Qed.

End Creation.

Lemma new_chain_commit_failure_witness :
  fst (FactomWalletd.new_chain (Demo.walletd 400) (Demo.factomd 400)
         (PList [PStr "a"]) (PStr "hello") (PStr "EC0") (Demo.start 400 0)) =
    Raise (FactomAPIError (-32011) (PStr "Repeated Commit") (PDict [])) /\
  (forall e, In e demo_new_chain_log -> ev_method e <> Some "reveal-chain") /\
  (forall secs, ~ In (EvSleep secs) demo_new_chain_log).
Proof.
  apply (new_chain_commit_failure (Demo.walletd 400) (Demo.factomd 400)
           (PList [PStr "a"]) (PStr "hello") (PStr "EC0") (Demo.start 400 0)
           demo_new_chain_log "http://localhost:8088/v2"
           (body_of "commit-chain" (PDict [("message", PStr "void")]) 0)).
  - vm_compute. reflexivity.
  - vm_compute. right. left. reflexivity.
  - reflexivity.
Defined.

(** ** Default addresses *)

Section Defaults.
Context {E : Env}.
Implicit Types (self factomd : BaseAPI E) (s : state E).

Ltac step :=
  match goal with
  | |- context [_request ?self ?m ?p ?i ?st] =>
      let out := fresh "out" in
      let n := fresh "n" in
      let H := fresh "H" in
      destruct (_request_shape self m p i st) as (out & n & H);
      rewrite H; clear H;
      destruct out as [? | ?]; cbn [fst snd trace net rng lift ret getitem]
  end.

Ltac lookup key :=
  match goal with
  | |- context [getitem ?v key] =>
      destruct (getitem v key) as [? | ?]; cbn [fst snd trace net rng]
  end.

Ltac sent Hf :=
  cbn [fst snd trace]; rewrite <- ?app_assoc; cbn [app];
  eexists; split; [reflexivity |];
  eexists _, _; split; [reflexivity |];
  split; cbn; unfold py_or; rewrite ?Hf; reflexivity.

(** C9, as the client does it: a falsy address argument ([None], the
    empty string, ...) is replaced by the configured default in the call
    of each of the seven operations, so what is sent is the default,
    whatever the default is.  For [new_chain] and [new_entry] the call
    is made once the two [hex] conversions have succeeded. *)
Theorem falsy_address_defaults self factomd address name amount chain_id
    ext_ids content s :
  truthy address = false ->
  sends (Factomd.entry_credit_balance self address) s
    "entry-credit-balance" "address" (ec_address self) /\
  sends (Factomd.factoid_balance self address) s
    "factoid-balance" "address" (fct_address self) /\
  sends (FactomWalletd.add_ec_output self name amount address) s
    "add-ec-output" "address" (ec_address self) /\
  sends (FactomWalletd.add_fee self name address) s
    "add-fee" "address" (fct_address self) /\
  sends (FactomWalletd.add_input self name amount address) s
    "add-input" "address" (fct_address self) /\
  (is_ok (hex E ext_ids) = true -> is_ok (hex E content) = true ->
   sends (FactomWalletd.new_chain self factomd ext_ids content address) s
     "compose-chain" "ecpub" (ec_address self) /\
   sends (FactomWalletd.new_entry self factomd chain_id ext_ids content
            address) s
     "compose-entry" "ecpub" (ec_address self)).
Proof.
  intros Hf.
  unfold sends, emits, Factomd.entry_credit_balance,
    Factomd.factoid_balance, FactomWalletd.add_ec_output,
    FactomWalletd.add_fee, FactomWalletd.add_input.
  do 5 (split; [step; sent Hf |]).
  intros Hx Hc.
  unfold FactomWalletd.new_chain, FactomWalletd.new_entry,
    Factomd.commit_chain, Factomd.reveal_chain, Factomd.commit_entry,
    Factomd.reveal_entry, bind, lift, sleep.
  destruct (hex E ext_ids) as [x | ?]; [| discriminate].
  destruct (hex E content) as [c | ?]; [| discriminate].
  split.
  - step; [| sent Hf].
    lookup "commit"; [| sent Hf].
    lookup "params"; [| sent Hf].
    lookup "message"; [| sent Hf].
    step; [| sent Hf].
    lookup "reveal"; [| sent Hf].
    lookup "params"; [| sent Hf].
    lookup "entry"; [| sent Hf].
    step; sent Hf.
  - step; [| sent Hf].
    lookup "commit"; [| sent Hf].
    lookup "params"; [| sent Hf].
    lookup "message"; [| sent Hf].
    step; [| sent Hf].
    lookup "reveal"; [| sent Hf].
    lookup "params"; [| sent Hf].
    lookup "entry"; [| sent Hf].
    step; sent Hf.
Qed.

End Defaults.

(** C9, read literally, does not hold: a client whose configured default
    is itself the empty string sends the empty string. *)
Lemma empty_default_address_is_sent :
  ~ falsy_address_replaced demo_unset (PStr "") (Demo.start 400 0).
Proof.
  intros H. destruct (H eq_refl) as (evs & Hem & _ & Hne).
  unfold emits in Hem. vm_compute in Hem. subst evs.
  eapply Hne; [left; reflexivity | reflexivity].
Qed.

Lemma falsy_address_defaults_witness :
  sends (Factomd.entry_credit_balance (Demo.walletd 400) (PStr ""))
    (Demo.start 400 0) "entry-credit-balance" "address" (PStr "EC1") /\
  sends (FactomWalletd.add_input (Demo.walletd 400) (PStr "TX_1") (PInt 5)
           PNone)
    (Demo.start 400 0) "add-input" "address" (PStr "FA1").
Proof.
  split.
  - apply (falsy_address_defaults (Demo.walletd 400) (Demo.factomd 400)
             (PStr "") (PStr "TX_1") (PInt 5) (PStr "c1")
             (PList [PStr "a"]) (PStr "hello") (Demo.start 400 0) eq_refl).
  - apply (falsy_address_defaults (Demo.walletd 400) (Demo.factomd 400)
             PNone (PStr "TX_1") (PInt 5) (PStr "c1")
             (PList [PStr "a"]) (PStr "hello") (Demo.start 400 0) eq_refl).
Defined.

(** ** Reading a chain *)

Section Reading.
Context {E : Env}.
Implicit Types (self : BaseAPI E) (s : state E) (I : Net E -> Prop).

(** C4: when the chain-head call answers with the sentinel, [read_chain]
    returns the empty list whatever the fuel, and the one call it has
    made is that chain-head call: no entry block and no entry is looked
    up. *)
Theorem read_chain_empty_chain fuel self chain_id s head s1 :
  Factomd.chain_head self chain_id s = (Ok head, s1) ->
  getitem head "chainhead" = Ok (PStr NULL_BLOCK) ->
  Factomd.read_chain fuel self chain_id s = Some (Ok (PList []), s1) /\
  exists ev,
    trace s1 = (trace s ++ [ev])%list /\ ev_method ev = Some "chain-head".
Proof.
  intros Hhead Hnull. split.
  - unfold Factomd.read_chain, bind, lift. rewrite Hhead, Hnull.
    destruct fuel; reflexivity.
  - unfold Factomd.chain_head in Hhead.
    destruct (_request_shape self "chain-head"
                (PDict [("chainid", chain_id)]) 0 s) as (out & n' & Hrun).
    rewrite Hrun in Hhead. injection Hhead as -> <-.
    eexists. split; reflexivity.
Qed.

End Reading.

Lemma read_chain_empty_chain_witness :
  Factomd.read_chain 0 (Demo.factomd 400) (PStr "c0") (Demo.start 400 0) =
    Some (Ok (PList []),
          snd (Factomd.chain_head (Demo.factomd 400) (PStr "c0")
                 (Demo.start 400 0))) /\
  exists ev,
    trace (snd (Factomd.chain_head (Demo.factomd 400) (PStr "c0")
                  (Demo.start 400 0))) = [ev] /\
    ev_method ev = Some "chain-head".
Proof.
  apply (read_chain_empty_chain 0 (Demo.factomd 400) (PStr "c0")
           (Demo.start 400 0)
           (PDict [("chainhead", PStr NULL_BLOCK)])).
  - vm_compute. reflexivity.
  - reflexivity.
Defined.

Section Traversal.
Context {E : Env}.
Implicit Types (self : BaseAPI E) (s : state E) (I : Net E -> Prop).

Lemma request_replies self method params v s n' :
  replies self (net s) method params v n' ->
  _request self method params 0 s =
  (Ok v, mkState n' (rng s)
           (trace s ++ [EvRequest (url self) (body_of method params 0)
                          (Ok v)])).
Proof.
  intros (resp & body & Hreq & Hlt & Hbody & Hres).
  rewrite _request_run, Hreq. cbv zeta. cbn [fst snd interpret rbind].
  apply Z.leb_gt in Hlt. rewrite Hlt. unfold json. rewrite Hbody.
  cbn [rbind]. rewrite Hres. reflexivity.
Qed.

Lemma read_chain_entry_served self I e ref entries s :
  serves_entry self I e -> I (net s) ->
  getitem ref "entryhash" = Ok (e_hash e) ->
  exists s',
    Factomd.read_chain_entry self ref entries s =
    (Ok (entries ++ [decoded e])%list, s') /\ I (net s').
Proof.
  intros Hserve HI Href.
  destruct (Hserve _ HI)
    as (v & n' & x & y & Hrep & HI' & Hc & Hx & Hx' & Hy & Hy').
  unfold Factomd.read_chain_entry, Factomd.entry, bind, lift, ret.
  rewrite Href, (request_replies _ _ _ _ _ _ Hrep).
  rewrite Hc, Hx, Hx', Hy, Hy'.
  eexists. split; [reflexivity | exact HI'].
Qed.

Lemma read_chain_for_served self I refs es :
  Forall2 (fun r e => getitem r "entryhash" = Ok (e_hash e)) refs es ->
  Forall (serves_entry self I) es ->
  forall entries s, I (net s) ->
  exists s',
    Factomd.read_chain_for self refs entries s =
    (Ok (entries ++ map decoded es)%list, s') /\ I (net s').
Proof.
  induction 1 as [| ref e refs es Href _ IH]; intros Hall entries s HI.
  - exists s. cbn. rewrite app_nil_r. split; [reflexivity | exact HI].
  - apply Forall_cons in Hall as [He Hes].
    destruct (read_chain_entry_served self I e ref entries s He HI Href)
      as (s1 & Hrun & HI1).
    destruct (IH Hes (entries ++ [decoded e])%list s1 HI1)
      as (s2 & Hrest & HI2).
    exists s2. cbn [Factomd.read_chain_for]. unfold bind.
    rewrite Hrun, Hrest, <- app_assoc. split; [reflexivity | exact HI2].
Qed.

Lemma Forall2_rev {A B} (P : A -> B -> Prop) l k :
  Forall2 P l k -> Forall2 P (rev l) (rev k).
Proof.
  induction 1 as [| x y l k Hxy _ IH]; cbn; [constructor |].
  apply Forall2_app; [exact IH | repeat constructor; exact Hxy].
Qed.

Lemma read_chain_block_served self I b prev entries s :
  serves_block self I b prev -> I (net s) ->
  exists s',
    Factomd.read_chain_block self (PStr (b_keymr b)) entries s =
    (Ok (PStr prev, (entries ++ map decoded (rev (b_entries b)))%list), s')
    /\ I (net s').
Proof.
  intros (_ & Hblock & Hentries) HI.
  destruct (Hblock _ HI)
    as (v & n' & refs & header & Hrep & HI' & Hlist & Hrefs & Hh & Hprev).
  unfold Factomd.read_chain_block, Factomd.entry_block, bind, lift, ret.
  rewrite (request_replies _ _ _ _ _ _ Hrep), Hlist.
  cbn [py_reversed].
  destruct (read_chain_for_served self I (rev refs) (rev (b_entries b))
              (Forall2_rev _ _ _ Hrefs)
              (List.Forall_rev Hentries) entries
              (mkState n' (rng s)
                 (trace s ++
                  [EvRequest (url self)
                     (body_of "entry-block"
                        (PDict [("keymr", PStr (b_keymr b))]) 0) (Ok v)]))
              HI')
    as (s1 & Hrun & HI1).
  rewrite Hrun, Hh, Hprev.
  eexists. split; [reflexivity | exact HI1].
Qed.

Lemma read_chain_while_linked self I blocks :
  linked self I blocks ->
  forall fuel entries s,
    I (net s) -> (length blocks <= fuel)%nat ->
    exists s',
      Factomd.read_chain_while fuel self (PStr (head_keymr blocks))
        entries s =
      Some (Ok (entries ++
                flat_map (fun b => map decoded (rev (b_entries b))) blocks)
              %list, s')
      /\ I (net s').
Proof.
  induction blocks as [| b older IH]; intros Hlinked fuel entries s HI Hfuel.
  - exists s. cbn [head_keymr flat_map]. rewrite app_nil_r.
    split; [destruct fuel; reflexivity | exact HI].
  - destruct Hlinked as [Hb Holder].
    destruct fuel as [| fuel]; [cbn in Hfuel; lia |].
    cbn [head_keymr flat_map Factomd.read_chain_while py_ne_str].
    pose proof (proj1 Hb) as Hkey.
    apply String.eqb_neq in Hkey. rewrite Hkey. cbn [negb].
    destruct (read_chain_block_served self I b (head_keymr older) entries s
                Hb HI)
      as (s1 & Hrun & HI1).
    rewrite Hrun.
    destruct (IH Holder fuel
                (entries ++ map decoded (rev (b_entries b)))%list s1 HI1)
      as (s2 & Hrest & HI2); [cbn in Hfuel; lia |].
    exists s2. rewrite Hrest, <- app_assoc. split; [reflexivity | exact HI2].
Qed.

Lemma newest_first_by_block blocks :
  rev (map decoded (chronological blocks)) =
  flat_map (fun b => map decoded (rev (b_entries b))) blocks.
Proof.
  unfold chronological. induction blocks as [| b older IH]; [reflexivity |].
  cbn [rev flat_map]. rewrite flat_map_app, map_app, rev_app_distr.
  cbn [flat_map]. rewrite app_nil_r, IH, map_rev. reflexivity.
Qed.

(** C1: when the node serves a chain whose blocks, newest first, are
    linked through [prevkeymr] down to the sentinel and list their
    entries oldest first, [read_chain] with a pass of fuel for every
    block returns the list of all entries of the chain, newest first
    (the reverse of their chronological order), each as the dict of its
    chain id, its decoded external ids and its decoded content. *)
Theorem read_chain_newest_first self I chain_id blocks fuel s :
  serves_chain self I chain_id blocks ->
  I (net s) ->
  (length blocks <= fuel)%nat ->
  exists s',
    Factomd.read_chain fuel self chain_id s =
    Some (Ok (PList (rev (map decoded (chronological blocks)))), s') /\
    I (net s').
Proof.
  intros [Hhead Hlinked] HI Hfuel.
  destruct (Hhead _ HI) as (v & n' & Hrep & HI' & Hkey).
  unfold Factomd.read_chain, Factomd.chain_head, bind, lift.
  rewrite (request_replies _ _ _ _ _ _ Hrep), Hkey.
  destruct (read_chain_while_linked self I blocks Hlinked fuel []
              (mkState n' (rng s)
                 (trace s ++
                  [EvRequest (url self)
                     (body_of "chain-head" (PDict [("chainid", chain_id)]) 0)
                     (Ok v)]))
              HI' Hfuel)
    as (s' & Hrun & HI'').
  rewrite Hrun, newest_first_by_block. cbn [app].
  exists s'. split; [reflexivity | exact HI''].
Qed.

End Traversal.

Lemma demo_serves_chain :
  serves_chain (Demo.factomd 400) (fun _ => True) (PStr "c1") demo_blocks.
Proof.
  assert (Hentry : forall h tag body,
             In (h, tag, body)
               [("h1", "a", "one"); ("h2", "b", "two");
                ("h3", "c", "three"); ("h4", "d", "four")] ->
             serves_entry (Demo.factomd 400) (fun _ => True)
               (demo_entry h tag body)).
  { intros h tag body Hin n _. cbn [In] in Hin.
    repeat (destruct Hin as [[= <- <- <-] | Hin];
            [eexists _, (S n), _, _;
             split; [eexists _, _; repeat split; reflexivity |];
             repeat split; reflexivity |]).
    destruct Hin. }
  assert (Hblock : forall b prev,
             In (b, prev) [(mkBlock Demo.keymr2
                              [demo_entry "h3" "c" "three";
                               demo_entry "h4" "d" "four"], Demo.keymr1);
                           (mkBlock Demo.keymr1
                              [demo_entry "h1" "a" "one";
                               demo_entry "h2" "b" "two"], NULL_BLOCK)] ->
             serves_block (Demo.factomd 400) (fun _ => True) b prev).
  { intros b prev Hin. cbn [In] in Hin.
    repeat (destruct Hin as [[= <- <-] | Hin];
            [split; [discriminate |]; split;
             [intros n _; eexists _, (S n), _, _;
              split; [eexists _, _; repeat split; reflexivity |];
              repeat split; try reflexivity; repeat constructor
             | repeat constructor; apply Hentry; cbn; tauto] |]).
    destruct Hin. }
  split.
  - intros n _. eexists _, (S n).
    split; [eexists _, _; repeat split; reflexivity |].
    repeat split; reflexivity.
  - split; [apply Hblock; cbn; tauto |].
    split; [apply Hblock; cbn; tauto |].
    exact I.
Defined.

Lemma read_chain_newest_first_witness :
  exists s',
    Factomd.read_chain 2 (Demo.factomd 400) (PStr "c1") (Demo.start 400 0) =
    Some (Ok (PList (map decoded
                       [demo_entry "h4" "d" "four"; demo_entry "h3" "c" "three";
                        demo_entry "h2" "b" "two"; demo_entry "h1" "a" "one"])),
          s') /\ True.
Proof.
  apply (read_chain_newest_first (Demo.factomd 400) (fun _ => True)
           (PStr "c1") demo_blocks 2 (Demo.start 400 0)).
  - exact demo_serves_chain.
  - exact I.
  - cbn. lia.
Defined.

(** ** Runs on the test double *)

(** A transfer whose input address the wallet refuses stops after
    add-input, with the wallet's error. *)
Example fct_to_ec_refused_input :
  let run := FactomWalletd.fct_to_ec (Demo.walletd 400) (Demo.factomd 400)
               (PInt 5) (PStr "FA0") PNone (Demo.start 400 3) in
  map ev_method (trace (snd run)) = [Some "new-transaction"; Some "add-input"] /\
  fst run = Raise (FactomAPIError (-32603) (PStr "Internal error") (PDict [])).
Proof. vm_compute. split; reflexivity. Qed.

(** A transfer that goes through makes the seven calls, all builder calls
    under the one generated name. *)
Example fct_to_fct_completes :
  let run := FactomWalletd.fct_to_fct (Demo.walletd 400) (Demo.factomd 400)
               (PInt 5) (PStr "FA2") PNone (Demo.start 400 3) in
  map ev_method (trace (snd run)) = map Some (transfer_order "add-output") /\
  map (ev_param "tx-name") (trace (snd run)) =
    (repeat (Some (PStr "TX_U1ALYD")) 6 ++ [None])%list /\
  fst run = Ok (PDict [("message", PStr "Successfully submitted")]).
Proof. vm_compute. repeat split; reflexivity. Qed.

(** Reading the two-block chain takes one head lookup, two block lookups
    and four entry lookups. *)
Example read_chain_lookups :
  option_map (fun run => map ev_method (trace (snd run)))
    (Factomd.read_chain 2 (Demo.factomd 400) (PStr "c1") (Demo.start 400 0)) =
  Some [Some "chain-head"; Some "entry-block"; Some "entry"; Some "entry";
        Some "entry-block"; Some "entry"; Some "entry"].
Proof. vm_compute. reflexivity. Qed.

(** With too little fuel the model of the loop gives up instead of
    answering. *)
Example read_chain_out_of_fuel :
  Factomd.read_chain 1 (Demo.factomd 400) (PStr "c1") (Demo.start 400 0) = None.
Proof. vm_compute. reflexivity. Qed.


(** * Further properties of the client *)

(** ** Ways a request can end *)

Section RequestOutcomes.
Context {E : Env}.
Implicit Types (self : BaseAPI E) (s : state E).

(** Once the session has been called, its answer decides the outcome of
    [_request]: the error of the session if it raised; the error of the
    mapper if the status was 400 or more and the mapper raised; and, when
    the status was below 400 or the mapper returned, the decoder's error
    for a body that is not JSON, [TypeError] for a body that is not a
    JSON object, [KeyError] for an object without [result], and the
    [result] member otherwise, whatever else the object holds. *)
Theorem request_outcome_by_answer self method params id s :
  let answer := fst (session_request E (session self) "POST" (url self)
                       (body_of method params id) (net s)) in
  let out := fst (_request self method params id s) in
  (forall e, answer = Raise e -> out = Raise e) /\
  (forall resp,
      answer = Ok resp ->
      (400 <= status_code resp ->
       forall e, handle_error_response E resp = Raise e -> out = Raise e) /\
      (status_code resp < 400 \/ handle_error_response E resp = Ok tt ->
       (resp_body resp = None -> out = Raise (ValueError "json")) /\
       (forall body,
           resp_body resp = Some body -> (forall d, body <> PDict d) ->
           out = Raise (TypeError "subscript")) /\
       (forall d,
           resp_body resp = Some (PDict d) -> assoc "result" d = None ->
           out = Raise (KeyError "result")) /\
       (forall d v,
           resp_body resp = Some (PDict d) -> assoc "result" d = Some v ->
           out = Ok v))).
Proof.
  rewrite _request_run. cbv zeta. cbn [fst].
  destruct (session_request _ _ _ _ _ _) as [[resp | e0] n']; cbn [fst].
  2: { split; [intros e [= ->]; reflexivity | intros resp [=]]. }
  split; [intros e [=] |]. intros resp' [= <-].
  unfold interpret. cbn [rbind].
  split.
  - intros Hst e He. apply Z.leb_le in Hst. rewrite Hst, He. reflexivity.
  - intros Hpass.
    assert (Hskip :
              rbind (if 400 <=? status_code resp
                     then handle_error_response E resp else Ok tt)
                (fun _ => rbind (json resp)
                            (fun body => getitem body "result")) =
              rbind (json resp) (fun body => getitem body "result")).
    { destruct Hpass as [Hlt | Hok].
      - apply Z.leb_gt in Hlt. rewrite Hlt. reflexivity.
      - rewrite Hok. destruct (400 <=? status_code resp); reflexivity. }
    rewrite Hskip. unfold json.
    split; [intros ->; reflexivity |].
    split; [intros body -> Hnot; destruct body; try reflexivity;
            exfalso; eapply Hnot; reflexivity |].
    split; intros d; [intros -> Hnone | intros v -> Hsome]; cbn;
      [rewrite Hnone | rewrite Hsome]; reflexivity.
Qed.

End RequestOutcomes.

Lemma request_outcome_by_answer_witness :
  fst (_request (Demo.factomd 200) "chain-head"
         (PDict [("chainid", PStr "c9")]) 0 (Demo.start 200 0)) =
    Raise (KeyError "result") /\
  fst (_request (Demo.factomd 400) "chain-head"
         (PDict [("chainid", PStr "c0")]) 0 (Demo.start 400 0)) =
    Ok (PDict [("chainhead", PStr NULL_BLOCK)]).
Proof.
  split.
  - refine (proj1 (proj2 (proj2 (proj2 (proj2
              (request_outcome_by_answer (Demo.factomd 200) "chain-head"
                 (PDict [("chainid", PStr "c9")]) 0 (Demo.start 200 0))
              _ eq_refl) (or_introl _)))) _ eq_refl eq_refl).
    reflexivity.
  - refine (proj2 (proj2 (proj2 (proj2 (proj2
              (request_outcome_by_answer (Demo.factomd 400) "chain-head"
                 (PDict [("chainid", PStr "c0")]) 0 (Demo.start 400 0))
              _ eq_refl) (or_introl _)))) _ _ eq_refl eq_refl).
    reflexivity.
Defined.

(** ** Proof steps for runs of several calls *)

(** Run the next [_request] of the goal and split on how it ended. *)
Ltac run_request :=
  match goal with
  | |- context [_request ?self ?m ?p ?i ?st] =>
      let out := fresh "out" in
      let n := fresh "n" in
      let H := fresh "H" in
      destruct (_request_shape self m p i st) as (out & n & H);
      rewrite H; clear H;
      destruct out as [? | ?]; cbn [fst snd trace net rng lift ret getitem]
  end.

Ltac run_lookup key :=
  match goal with
  | |- context [getitem ?v key] =>
      destruct (getitem v key) as [? | ?] eqn:?;
      cbn [fst snd trace net rng]
  end.

(** Name the entries a finished run has appended to the log. *)
Ltac name_log :=
  cbn [fst snd trace rng]; rewrite <- ?app_assoc; cbn [app];
  first [ exists []; split; [symmetry; apply app_nil_r |]
        | eexists; split; [reflexivity |] ].

Ltac unfold_calls :=
  unfold Factomd.chain_head, Factomd.commit_chain, Factomd.commit_entry,
    Factomd.entry, Factomd.entry_block, Factomd.entry_credit_balance,
    Factomd.entry_credit_rate, Factomd.factoid_balance,
    Factomd.factoid_submit, Factomd.reveal_chain, Factomd.reveal_entry,
    FactomWalletd.add_ec_output, FactomWalletd.add_fee,
    FactomWalletd.add_input, FactomWalletd.add_output,
    FactomWalletd.compose_transaction, FactomWalletd.sign_transaction,
    FactomWalletd.sub_fee.

(** ** Addresses given and not given *)

Section Addresses.
Context {E : Env}.
Implicit Types (self factomd : BaseAPI E) (s : state E).

Ltac sent_as_is Ht :=
  name_log; eexists _, _; split; [reflexivity |];
  split; cbn; unfold py_or; rewrite ?Ht; reflexivity.

Ltac creation_sends Ht :=
  run_request; [| sent_as_is Ht];
  run_lookup "commit"; [| sent_as_is Ht];
  run_lookup "params"; [| sent_as_is Ht];
  run_lookup "message"; [| sent_as_is Ht];
  run_request; [| sent_as_is Ht];
  run_lookup "reveal"; [| sent_as_is Ht];
  run_lookup "params"; [| sent_as_is Ht];
  run_lookup "entry"; [| sent_as_is Ht];
  run_request; sent_as_is Ht.

(** An address argument that is truthy is what each of the seven
    operations with an address default sends; the configured default plays
    no part. *)
Theorem given_address_is_sent self factomd address name amount chain_id
    ext_ids content s :
  truthy address = true ->
  sends (Factomd.entry_credit_balance self address) s
    "entry-credit-balance" "address" address /\
  sends (Factomd.factoid_balance self address) s
    "factoid-balance" "address" address /\
  sends (FactomWalletd.add_ec_output self name amount address) s
    "add-ec-output" "address" address /\
  sends (FactomWalletd.add_fee self name address) s
    "add-fee" "address" address /\
  sends (FactomWalletd.add_input self name amount address) s
    "add-input" "address" address /\
  (is_ok (hex E ext_ids) = true -> is_ok (hex E content) = true ->
   sends (FactomWalletd.new_chain self factomd ext_ids content address) s
     "compose-chain" "ecpub" address /\
   sends (FactomWalletd.new_entry self factomd chain_id ext_ids content
            address) s
     "compose-entry" "ecpub" address).
Proof.
  intros Ht. unfold sends, emits. unfold_calls.
  do 5 (split; [run_request; sent_as_is Ht |]).
  intros Hx Hc.
  unfold FactomWalletd.new_chain, FactomWalletd.new_entry, bind, lift, sleep.
  unfold_calls.
  destruct (hex E ext_ids) as [x | ?]; [| discriminate].
  destruct (hex E content) as [c | ?]; [| discriminate].
  split; creation_sends Ht.
Qed.

(** [add_output] and [sub_fee] have no default to fall back on: whatever
    is passed as the address, [None] and the empty string included, is
    what the call carries. *)
Theorem output_address_sent_unchanged self name amount address s :
  sends (FactomWalletd.add_output self name amount address) s
    "add-output" "address" address /\
  sends (FactomWalletd.sub_fee self name address) s
    "sub-fee" "address" address.
Proof.
  unfold sends, emits. unfold_calls.
  split; run_request; name_log; eexists _, _; split; try reflexivity;
    split; reflexivity.
Qed.


(** [new_transaction] with a truthy name is the single call under that
    name and leaves the generator alone. *)
Lemma new_transaction_given_name self name s :
  truthy name = true ->
  FactomWalletd.new_transaction self name s =
    _request self "new-transaction" (PDict [("tx-name", name)]) 0 s /\
  rng (snd (FactomWalletd.new_transaction self name s)) = rng s.
Proof.
  intros Ht. unfold FactomWalletd.new_transaction, bind, ret.
  rewrite Ht. split; [reflexivity |].
  run_request; reflexivity.
Qed.

(** [new_transaction] with a falsy name ([None], the empty string) never
    sends that name: under the generator's contract it opens the
    transaction under a generated name, [TX_] and six characters. *)
Theorem new_transaction_generates_name self name s :
  truthy name = false ->
  rng_in_range E ->
  exists suffix,
    String.length suffix = 6%nat /\
    sends (FactomWalletd.new_transaction self name) s
      "new-transaction" "tx-name" (PStr ("TX_" ++ suffix)).
Proof.
  intros Hf Hrng.
  unfold sends, emits, FactomWalletd.new_transaction, _xact_name, bind, ret.
  rewrite Hf.
  destruct (choices_in_range
              (list_ascii_of_string (ascii_uppercase ++ digits)) 6 s Hrng)
    as (cs & g' & -> & Hlen & _); [discriminate |].
  exists (string_of_list_ascii cs). split.
  - rewrite <- Hlen. clear. induction cs; cbn; congruence.
  - run_request; name_log; eexists _, _; split; try reflexivity;
      split; reflexivity.
Qed.

(** When [hex] raises on the external ids, or on the content after the
    ids went through, [new_chain] and [new_entry] raise that error
    without having made a call: the state is the one they started in. *)
Theorem encoding_error_before_any_call self factomd chain_id ext_ids content
    address s e :
  hex E ext_ids = Raise e \/
  (is_ok (hex E ext_ids) = true /\ hex E content = Raise e) ->
  FactomWalletd.new_chain self factomd ext_ids content address s =
    (Raise e, s) /\
  FactomWalletd.new_entry self factomd chain_id ext_ids content address s =
    (Raise e, s).
Proof.
  unfold FactomWalletd.new_chain, FactomWalletd.new_entry, bind, lift.
  intros [-> | [Hx ->]]; [split; reflexivity |].
  destruct (hex E ext_ids); [split; reflexivity | discriminate].
Qed.

End Addresses.

(** ** Creating chains and entries *)

Section CreationRuns.
Context {E : Env}.
Implicit Types (self factomd : BaseAPI E) (s : state E).

Ltac by_lookups :=
  cbn [getpath fold_left rbind];
  repeat match goal with
         | H : getitem _ _ = Ok _ |- _ => rewrite H; clear H; cbn [rbind]
         end;
  reflexivity.



Ltac run_hex :=
  match goal with
  | |- context [hex E ?v] =>
      destruct (hex E v) as [? | ?] eqn:?; cbn [fst snd trace net rng]
  end.

Ltac creation close :=
  unfold emits, FactomWalletd.new_chain, FactomWalletd.new_entry, bind, lift,
    sleep;
  unfold_calls;
  run_hex; [| close];
  run_hex; [| close];
  run_request; [| close];
  run_lookup "commit"; [| close];
  run_lookup "params"; [| close];
  run_lookup "message"; [| close];
  run_request; [| close];
  run_lookup "reveal"; [| close];
  run_lookup "params"; [| close];
  run_lookup "entry"; [| close];
  run_request; close.




Ltac composed :=
  cbn [fst snd trace];
  let Hv := fresh "Hv" in
  intros Hv;
  first
    [ discriminate Hv
    | injection Hv as ->;
      eexists _, _, _, _, _, _;
      split; [reflexivity |];
      split; [reflexivity |];
      split; [rewrite <- ?app_assoc; cbn [app]; reflexivity |];
      split; by_lookups ].

(** A [new_chain] or [new_entry] that returns has made exactly four
    entries in the log: the compose call to the wallet with the
    hex-encoded ids and content, the commit call to the node with the
    message the wallet composed, the two-second sleep, and the reveal call
    to the node with the entry the wallet composed; what it returns is the
    answer to the reveal. *)
Theorem creation_success_log self factomd chain_id ext_ids content address
    s v :
  (fst (FactomWalletd.new_chain self factomd ext_ids content address s) =
     Ok v ->
   exists x c calls message entry receipt,
     hex E ext_ids = Ok x /\ hex E content = Ok c /\
     emits (FactomWalletd.new_chain self factomd ext_ids content address) s
       [EvRequest (url self)
          (body_of "compose-chain"
             (PDict [("chain",
                      PDict [("firstentry",
                              PDict [("extids", x); ("content", c)])]);
                     ("ecpub", py_or address (ec_address self))]) 0)
          (Ok calls);
        EvRequest (url factomd)
          (body_of "commit-chain" (PDict [("message", message)]) 0)
          (Ok receipt);
        EvSleep 2;
        EvRequest (url factomd)
          (body_of "reveal-chain" (PDict [("entry", entry)]) 0) (Ok v)] /\
     getpath calls ["commit"; "params"; "message"] = Ok message /\
     getpath calls ["reveal"; "params"; "entry"] = Ok entry) /\
  (fst (FactomWalletd.new_entry self factomd chain_id ext_ids content address
          s) = Ok v ->
   exists x c calls message entry receipt,
     hex E ext_ids = Ok x /\ hex E content = Ok c /\
     emits (FactomWalletd.new_entry self factomd chain_id ext_ids content
              address) s
       [EvRequest (url self)
          (body_of "compose-entry"
             (PDict [("entry",
                      PDict [("chainid", chain_id); ("extids", x);
                             ("content", c)]);
                     ("ecpub", py_or address (ec_address self))]) 0)
          (Ok calls);
        EvRequest (url factomd)
          (body_of "commit-entry" (PDict [("message", message)]) 0)
          (Ok receipt);
        EvSleep 2;
        EvRequest (url factomd)
          (body_of "reveal-entry" (PDict [("entry", entry)]) 0) (Ok v)] /\
     getpath calls ["commit"; "params"; "message"] = Ok message /\
     getpath calls ["reveal"; "params"; "entry"] = Ok entry).
Proof. split; creation composed. Qed.

End CreationRuns.

(** ** What the transfer workflows send *)

Section TransferRuns.
Context {E : Env}.
Implicit Types (self factomd : BaseAPI E) (s : state E).

Ltac transfer_run close :=
  unfold emits, FactomWalletd.fct_to_ec, FactomWalletd.fct_to_fct,
    FactomWalletd.new_transaction, bind;
  unfold_calls;
  match goal with
  | |- context [_xact_name ?self ?s] =>
      let r := fresh "r" in
      let g := fresh "g" in
      let Hname := fresh "Hname" in
      destruct (_xact_name_frame self s) as (r & g & -> & Hname);
      destruct r as [? | ?]; [| close];
      destruct (Hname _ eq_refl) as [? ->]; clear Hname;
      cbn [truthy append ret]
  end;
  do 6 (run_request; [| close]);
  run_lookup "params"; [| close];
  run_lookup "transaction"; [| close];
  run_request; close.

Ltac carried :=
  name_log;
  repeat split;
  let e := fresh "e" in
  let Hin := fresh "Hin" in
  let Hm := fresh "Hm" in
  intros e Hin Hm; cbn [In] in Hin;
  repeat (destruct Hin as [<- | Hin];
          [cbn in Hm; first [discriminate Hm | repeat constructor] |]);
  destruct Hin.

(** The amount passed to [fct_to_ec] is both the input and the
    entry-credit output; the input and the fee are charged to the same
    address, the factoid address passed or else the default, and the
    credits go to the credit address passed or else the default.  In
    [fct_to_fct] the input and the fee come from [fct_from] or else the
    default, and the output goes to [fct_to] as passed, with no default
    behind it. *)
Theorem transfer_amounts_and_addresses self factomd amount a b s :
  (exists evs,
      emits (FactomWalletd.fct_to_ec self factomd amount a b) s evs /\
      carries "add-input"
        [("amount", amount); ("address", py_or a (fct_address self))] evs /\
      carries "add-ec-output"
        [("amount", amount); ("address", py_or b (ec_address self))] evs /\
      carries "add-fee" [("address", py_or a (fct_address self))] evs) /\
  (exists evs,
      emits (FactomWalletd.fct_to_fct self factomd amount a b) s evs /\
      carries "add-input"
        [("amount", amount); ("address", py_or b (fct_address self))] evs /\
      carries "add-output" [("amount", amount); ("address", a)] evs /\
      carries "add-fee" [("address", py_or b (fct_address self))] evs).
Proof. split; transfer_run carried. Qed.

Ltac submitted :=
  cbn [fst snd trace];
  let Hv := fresh "Hv" in
  intros Hv;
  first
    [ discriminate Hv
    | injection Hv as ->;
      rewrite <- ?app_assoc; cbn [app];
      match goal with
      | |- context [(trace _ ++ [?e1; ?e2; ?e3; ?e4; ?e5; ?c; ?sub])%list] =>
          exists [e1; e2; e3; e4; e5]
      end;
      eexists _, _, _;
      split; [reflexivity |];
      split; [reflexivity |];
      split; [reflexivity |];
      split; [cbn [getpath fold_left rbind];
              repeat match goal with
                     | H : getitem _ _ = Ok _ |- _ =>
                         rewrite H; clear H; cbn [rbind]
                     end;
              reflexivity |];
      repeat constructor ].

(** A transfer that returns has made five builder calls to the wallet,
    then compose-transaction to the wallet, then factoid-submit to the
    node; the transaction submitted is the one found under
    [params.transaction] of the compose answer, and what the workflow
    returns is the answer to the submission. *)
Theorem transfer_submits_composed self factomd amount a b s v :
  (fst (FactomWalletd.fct_to_ec self factomd amount a b s) = Ok v ->
   exists pre data call tx,
     emits (FactomWalletd.fct_to_ec self factomd amount a b) s
       (pre ++ [EvRequest (url self) data (Ok call);
                EvRequest (url factomd)
                  (body_of "factoid-submit" (PDict [("transaction", tx)]) 0)
                  (Ok v)]) /\
     length pre = 5%nat /\
     ev_method (EvRequest (url self) data (Ok call)) =
       Some "compose-transaction" /\
     getpath call ["params"; "transaction"] = Ok tx /\
     Forall (fun e => ev_url e = Some (url self)) pre) /\
  (fst (FactomWalletd.fct_to_fct self factomd amount a b s) = Ok v ->
   exists pre data call tx,
     emits (FactomWalletd.fct_to_fct self factomd amount a b) s
       (pre ++ [EvRequest (url self) data (Ok call);
                EvRequest (url factomd)
                  (body_of "factoid-submit" (PDict [("transaction", tx)]) 0)
                  (Ok v)]) /\
     length pre = 5%nat /\
     ev_method (EvRequest (url self) data (Ok call)) =
       Some "compose-transaction" /\
     getpath call ["params"; "transaction"] = Ok tx /\
     Forall (fun e => ev_url e = Some (url self)) pre).
Proof. split; transfer_run submitted. Qed.

Ltac no_submit :=
  let e := fresh "e" in
  let Hin := fresh "Hin" in
  intros e Hin; cbn [In] in Hin;
  repeat (destruct Hin as [<- | Hin]; [cbn; discriminate |]);
  destruct Hin.

Ltac each_composed Hin Hm Hget :=
  lazymatch type of Hin with
  | False => destruct Hin
  | _ \/ _ =>
      let Heq := fresh "Heq" in
      destruct Hin as [Heq | Hin];
      [ first
          [ discriminate Heq
          | injection Heq as <- <- <-; cbn in Hm;
            first
              [ discriminate Hm
              | cbn [getpath fold_left rbind] in Hget;
                repeat match goal with
                       | H : getitem _ _ = _ |- _ =>
                           rewrite H in Hget; clear H; cbn [rbind] in Hget
                       end;
                first [ discriminate Hget
                      | injection Hget as <-;
                        split; [reflexivity | no_submit] ] ] ]
      | each_composed Hin Hm Hget ]
  end.

Ltac uncomposed :=
  name_log;
  let u := fresh "u" in
  let d := fresh "d" in
  let call := fresh "call" in
  let x := fresh "x" in
  let Hin := fresh "Hin" in
  let Hm := fresh "Hm" in
  let Hget := fresh "Hget" in
  intros u d call x Hin Hm Hget; cbn [In] in Hin;
  each_composed Hin Hm Hget.

(** When the answer to compose-transaction has no [params.transaction]
    to offer, the subscript error is the outcome of the transfer and
    factoid-submit is not called: the transaction stays built and signed
    in the wallet, unsubmitted. *)
Theorem transfer_needs_composed_transaction self factomd amount a b s :
  (exists evs,
      emits (FactomWalletd.fct_to_ec self factomd amount a b) s evs /\
      forall url data call x,
        In (EvRequest url data (Ok call)) evs ->
        ev_method (EvRequest url data (Ok call)) =
          Some "compose-transaction" ->
        getpath call ["params"; "transaction"] = Raise x ->
        fst (FactomWalletd.fct_to_ec self factomd amount a b s) = Raise x /\
        forall e, In e evs -> ev_method e <> Some "factoid-submit") /\
  (exists evs,
      emits (FactomWalletd.fct_to_fct self factomd amount a b) s evs /\
      forall url data call x,
        In (EvRequest url data (Ok call)) evs ->
        ev_method (EvRequest url data (Ok call)) =
          Some "compose-transaction" ->
        getpath call ["params"; "transaction"] = Raise x ->
        fst (FactomWalletd.fct_to_fct self factomd amount a b s) = Raise x /\
        forall e, In e evs -> ev_method e <> Some "factoid-submit").
Proof. split; transfer_run uncomposed. Qed.

End TransferRuns.

(** ** What a traversal does to the log *)

Section ReadOnly.
Context {E : Env}.
Implicit Types (self : BaseAPI E) (s : state E).

Lemma stops_at_failure_nil {A} (r : result A) : stops_at_failure r [].
Proof. intros i e x Hi. destruct i; discriminate Hi. Qed.

Lemma stops_at_failure_app {A B} (a : A) (r : result B) evs1 evs2 :
  stops_at_failure (Ok a) evs1 -> stops_at_failure r evs2 ->
  stops_at_failure r (evs1 ++ evs2).
Proof.
  intros H1 H2 i e x Hi Hx.
  apply lookup_app_Some in Hi as [Hi | [Hle Hi]].
  - destruct (H1 i e x Hi Hx) as [_ Hr]. discriminate Hr.
  - destruct (H2 _ e x Hi Hx) as [Hlen ->].
    split; [| reflexivity]. rewrite length_app. lia.
Qed.

Lemma stops_at_failure_raise {A B} e evs :
  stops_at_failure (@Raise A e) evs -> stops_at_failure (@Raise B e) evs.
Proof.
  intros H i ev x Hi Hx. destruct (H i ev x Hi Hx) as [Hlen [= ->]].
  split; [assumption | reflexivity].
Qed.

Lemma reads_ret {A} self (a : A) : reads self (ret a).
Proof.
  intros s. exists []. cbn. rewrite app_nil_r.
  split; [reflexivity |]. split; [reflexivity |].
  split; [constructor | apply stops_at_failure_nil].
Qed.

Lemma reads_lift {A} self (r : result A) : reads self (lift r).
Proof.
  intros s. exists []. cbn. rewrite app_nil_r.
  split; [reflexivity |]. split; [reflexivity |].
  split; [constructor | apply stops_at_failure_nil].
Qed.

Lemma reads_bind {A B} self (m : M E A) (k : A -> M E B) :
  reads self m -> (forall a, reads self (k a)) -> reads self (bind m k).
Proof.
  intros Hm Hk s. unfold bind.
  destruct (Hm s) as (evs1 & Ht1 & Hg1 & Hall1 & Hstop1).
  destruct (m s) as [[a | e] s1]; cbn [fst snd] in *.
  - destruct (Hk a s1) as (evs2 & Ht2 & Hg2 & Hall2 & Hstop2).
    exists (evs1 ++ evs2)%list.
    rewrite Ht2, Ht1, Hg2, Hg1, app_assoc.
    split; [reflexivity |]. split; [reflexivity |]. split.
    + apply Forall_app. split; assumption.
    + eapply stops_at_failure_app; eassumption.
  - exists evs1. cbn [fst snd].
    split; [assumption |]. split; [assumption |]. split; [assumption |].
    eapply stops_at_failure_raise; eassumption.
Qed.

Lemma reads_request self method params :
  In method lookup_methods ->
  reads self (_request self method params 0).
Proof.
  intros Hin s.
  destruct (_request_shape self method params 0 s) as (out & n' & ->).
  eexists. cbn [fst snd trace rng].
  split; [reflexivity |]. split; [reflexivity |]. split.
  - repeat constructor. eexists _, _, method.
    split; [reflexivity |]. split; [| exact Hin].
    unfold body_of. destruct (truthy params); reflexivity.
  - intros i e x Hi Hx. destruct i as [| i]; [| destruct i; discriminate Hi].
    injection Hi as <-. cbn in Hx. destruct out; [discriminate Hx |].
    injection Hx as ->. split; reflexivity.
Qed.

Lemma reads_entry self hash entries :
  reads self (Factomd.read_chain_entry self hash entries).
Proof.
  unfold Factomd.read_chain_entry, Factomd.entry.
  repeat first
    [ apply reads_ret
    | apply reads_lift
    | apply reads_request; cbn; tauto
    | apply reads_bind; [| intros ?] ].
Qed.

Lemma reads_for self hashes :
  forall entries, reads self (Factomd.read_chain_for self hashes entries).
Proof.
  induction hashes as [| hash rest IH]; intros entries;
    cbn [Factomd.read_chain_for].
  - apply reads_ret.
  - apply reads_bind; [apply reads_entry | intros ?; apply IH].
Qed.

Lemma reads_block self keymr entries :
  reads self (Factomd.read_chain_block self keymr entries).
Proof.
  unfold Factomd.read_chain_block, Factomd.entry_block.
  repeat first
    [ apply reads_ret
    | apply reads_lift
    | apply reads_for
    | apply reads_request; cbn; tauto
    | apply reads_bind; [| intros ?] ].
Qed.

Lemma reads_while self fuel :
  forall keymr entries s r s',
    Factomd.read_chain_while fuel self keymr entries s = Some (r, s') ->
    exists evs,
      trace s' = (trace s ++ evs)%list /\ rng s' = rng s /\
      Forall (lookup_of self) evs /\ stops_at_failure r evs.
Proof.
  induction fuel as [| fuel IH]; intros keymr entries s r s';
    cbn [Factomd.read_chain_while];
    (destruct (py_ne_str keymr NULL_BLOCK);
     [| intros [= <- <-]; exists []; rewrite app_nil_r;
        split; [reflexivity |]; split; [reflexivity |];
        split; [constructor | apply stops_at_failure_nil]]).
  - discriminate.
  - destruct (reads_block self keymr entries s)
      as (evs1 & Ht1 & Hg1 & Hall1 & Hstop1).
    destruct (Factomd.read_chain_block self keymr entries s)
      as [[[prev entries'] | e] s1]; cbn [fst snd] in *.
    + intros Hrest.
      destruct (IH _ _ _ _ _ Hrest) as (evs2 & Ht2 & Hg2 & Hall2 & Hstop2).
      exists (evs1 ++ evs2)%list.
      rewrite Ht2, Ht1, Hg2, Hg1, app_assoc.
      split; [reflexivity |]. split; [reflexivity |]. split.
      * apply Forall_app. split; assumption.
      * eapply stops_at_failure_app; eassumption.
    + intros [= <- <-]. exists evs1.
      split; [assumption |]. split; [assumption |]. split; [assumption |].
      eapply stops_at_failure_raise; eassumption.
Qed.

Lemma reads_chain self fuel chain_id s r s' :
  Factomd.read_chain fuel self chain_id s = Some (r, s') ->
  exists evs,
    trace s' = (trace s ++ evs)%list /\ rng s' = rng s /\
    Forall (lookup_of self) evs /\ stops_at_failure r evs.
Proof.
  unfold Factomd.read_chain.
  assert (Hhead : reads self
            (bind (Factomd.chain_head self chain_id)
               (fun head => lift (getitem head "chainhead")))).
  { unfold Factomd.chain_head.
    apply reads_bind; [apply reads_request; cbn; tauto |].
    intros ?. apply reads_lift. }
  destruct (Hhead s) as (evs1 & Ht1 & Hg1 & Hall1 & Hstop1).
  destruct (bind _ _ s) as [[keymr | e] s1]; cbn [fst snd] in *.
  - destruct (Factomd.read_chain_while fuel self keymr [] s1)
      as [[[entries | e] s2] |] eqn:Hwhile; [| | discriminate].
    + intros [= <- <-].
      destruct (reads_while _ _ _ _ _ _ _ Hwhile)
        as (evs2 & Ht2 & Hg2 & Hall2 & Hstop2).
      exists (evs1 ++ evs2)%list.
      rewrite Ht2, Ht1, Hg2, Hg1, app_assoc.
      split; [reflexivity |]. split; [reflexivity |]. split.
      * apply Forall_app. split; assumption.
      * eapply stops_at_failure_app; [eassumption |].
        intros i e x Hi Hx.
        destruct (Hstop2 i e x Hi Hx) as [_ Hr]. discriminate Hr.
    + intros [= <- <-].
      destruct (reads_while _ _ _ _ _ _ _ Hwhile)
        as (evs2 & Ht2 & Hg2 & Hall2 & Hstop2).
      exists (evs1 ++ evs2)%list.
      rewrite Ht2, Ht1, Hg2, Hg1, app_assoc.
      split; [reflexivity |]. split; [reflexivity |]. split.
      * apply Forall_app. split; assumption.
      * eapply stops_at_failure_app; [eassumption |].
        eapply stops_at_failure_raise; eassumption.
  - intros [= <- <-]. exists evs1.
    split; [assumption |]. split; [assumption |]. split; [assumption |].
    eapply stops_at_failure_raise; eassumption.
Qed.

(** A [read_chain] that comes to an end has stopped at the first lookup
    that failed: a failed call is the last entry it has logged, and its
    error, not a partial list, is what the caller gets. *)
Theorem read_chain_stops_at_first_failure self fuel chain_id s r s' :
  Factomd.read_chain fuel self chain_id s = Some (r, s') ->
  exists evs,
    trace s' = (trace s ++ evs)%list /\ stops_at_failure r evs.
Proof.
  intros Hrun.
  destruct (reads_chain _ _ _ _ _ _ Hrun) as (evs & Ht & _ & _ & Hstop).
  exists evs. split; assumption.
Qed.

Lemma passes_read self n :
  forall keymr entries s,
    exists evs,
      trace (read_chain_passes n self keymr entries s) =
        (trace s ++ evs)%list /\
      rng (read_chain_passes n self keymr entries s) = rng s /\
      Forall (lookup_of self) evs.
Proof.
  assert (Hstay : forall s : state E,
             exists evs, trace s = (trace s ++ evs)%list /\ rng s = rng s /\
                         Forall (lookup_of self) evs).
  { intros s. exists []. rewrite app_nil_r.
    split; [reflexivity |]. split; [reflexivity | constructor]. }
  induction n as [| n IH]; intros keymr entries s;
    cbn [read_chain_passes];
    (destruct (py_ne_str keymr NULL_BLOCK); [| apply Hstay]).
  - apply Hstay.
  - destruct (reads_block self keymr entries s)
      as (evs1 & Ht1 & Hg1 & Hall1 & _).
    destruct (Factomd.read_chain_block self keymr entries s)
      as [[[prev entries'] | e] s1]; cbn [fst snd] in *.
    + destruct (IH prev entries' s1) as (evs2 & Ht2 & Hg2 & Hall2).
      exists (evs1 ++ evs2)%list. rewrite Ht2, Ht1, Hg2, Hg1, app_assoc.
      split; [reflexivity |]. split; [reflexivity |].
      apply Forall_app. split; assumption.
    + exists evs1. split; [assumption |]. split; assumption.
Qed.

Lemma while_ends_in_passes self fuel :
  forall keymr entries s r s',
    Factomd.read_chain_while fuel self keymr entries s = Some (r, s') ->
    s' = read_chain_passes fuel self keymr entries s.
Proof.
  induction fuel as [| fuel IH]; intros keymr entries s r s';
    cbn [Factomd.read_chain_while read_chain_passes];
    (destruct (py_ne_str keymr NULL_BLOCK);
     [| intros [= _ <-]; reflexivity]).
  - discriminate.
  - destruct (Factomd.read_chain_block self keymr entries s)
      as [[[prev entries'] | e] s1].
    + apply IH.
    + intros [= _ <-]. reflexivity.
Qed.

(** [read_chain] only reads, whether it comes to an end or not: at every
    point of a traversal, after the head lookup and any number of passes
    of the loop, every call made so far is a chain-head, entry-block or
    entry call to the client's own endpoint and the random generator is
    untouched; and the state a traversal ends in is such a point. *)
Theorem read_chain_only_looks_up self n chain_id s :
  (exists evs,
      trace (read_chain_upto n self chain_id s) = (trace s ++ evs)%list /\
      Forall (lookup_of self) evs /\
      rng (read_chain_upto n self chain_id s) = rng s) /\
  (forall r s',
      Factomd.read_chain n self chain_id s = Some (r, s') ->
      s' = read_chain_upto n self chain_id s).
Proof.
  unfold read_chain_upto, Factomd.read_chain.
  assert (Hhead : reads self
            (bind (Factomd.chain_head self chain_id)
               (fun head => lift (getitem head "chainhead")))).
  { unfold Factomd.chain_head.
    apply reads_bind; [apply reads_request; cbn; tauto |].
    intros ?. apply reads_lift. }
  destruct (Hhead s) as (evs1 & Ht1 & Hg1 & Hall1 & _).
  destruct (bind _ _ s) as [[keymr | e] s1]; cbn [fst snd] in *.
  - split.
    + destruct (passes_read self n keymr [] s1) as (evs2 & Ht2 & Hg2 & Hall2).
      exists (evs1 ++ evs2)%list. rewrite Ht2, Ht1, Hg2, Hg1, app_assoc.
      split; [reflexivity |]. split; [| reflexivity].
      apply Forall_app. split; assumption.
    + intros r s'.
      destruct (Factomd.read_chain_while n self keymr [] s1)
        as [[[entries | e] s2] |] eqn:Hwhile; [| | discriminate];
        intros [= _ <-]; eapply while_ends_in_passes; exact Hwhile.
  - split.
    + exists evs1. split; [assumption |]. split; assumption.
    + intros r s' [= _ <-]. reflexivity.
Qed.

End ReadOnly.

(** ** The lookups of a traversal, one by one *)

Section Lookups.
Context {E : Env}.
Implicit Types (self : BaseAPI E) (s : state E) (I : Net E -> Prop).

Lemma entry_lookup_logged self I e ref entries s :
  serves_entry self I e -> I (net s) ->
  getitem ref "entryhash" = Ok (e_hash e) ->
  exists s' ev,
    Factomd.read_chain_entry self ref entries s =
      (Ok (entries ++ [decoded e])%list, s') /\ I (net s') /\
    trace s' = (trace s ++ [ev])%list /\
    ev_call ev = Some ("entry", PDict [("hash", e_hash e)]).
Proof.
  intros Hserve HI Href.
  destruct (Hserve _ HI)
    as (v & n' & x & y & Hrep & HI' & Hc & Hx & Hx' & Hy & Hy').
  unfold Factomd.read_chain_entry, Factomd.entry, bind, lift, ret.
  rewrite Href, (request_replies _ _ _ _ _ _ Hrep).
  rewrite Hc, Hx, Hx', Hy, Hy'.
  eexists _, _. split; [reflexivity |]. split; [exact HI' |].
  split; reflexivity.
Qed.

Lemma entry_lookups_logged self I refs es :
  Forall2 (fun r e => getitem r "entryhash" = Ok (e_hash e)) refs es ->
  Forall (serves_entry self I) es ->
  forall entries s, I (net s) ->
  exists s' evs,
    Factomd.read_chain_for self refs entries s =
      (Ok (entries ++ map decoded es)%list, s') /\ I (net s') /\
    trace s' = (trace s ++ evs)%list /\
    map ev_call evs =
      map (fun e => Some ("entry", PDict [("hash", e_hash e)])) es.
Proof.
  induction 1 as [| ref e refs es Href _ IH]; intros Hall entries s HI.
  - exists s, []. cbn. rewrite !app_nil_r.
    split; [reflexivity |]. split; [exact HI |]. split; reflexivity.
  - apply Forall_cons in Hall as [He Hes].
    destruct (entry_lookup_logged self I e ref entries s He HI Href)
      as (s1 & ev & Hrun & HI1 & Ht1 & Hcall).
    destruct (IH Hes (entries ++ [decoded e])%list s1 HI1)
      as (s2 & evs & Hrest & HI2 & Ht2 & Hcalls).
    exists s2, (ev :: evs). cbn [Factomd.read_chain_for]. unfold bind.
    rewrite Hrun, Hrest, <- app_assoc.
    split; [reflexivity |]. split; [exact HI2 |]. split.
    + rewrite Ht2, Ht1, <- app_assoc. reflexivity.
    + cbn [map]. rewrite Hcall, Hcalls. reflexivity.
Qed.

Lemma block_lookups_logged self I b prev entries s :
  serves_block self I b prev -> I (net s) ->
  exists s' evs,
    Factomd.read_chain_block self (PStr (b_keymr b)) entries s =
      (Ok (PStr prev, (entries ++ map decoded (rev (b_entries b)))%list), s')
    /\ I (net s') /\
    trace s' = (trace s ++ evs)%list /\
    map ev_call evs =
      Some ("entry-block", PDict [("keymr", PStr (b_keymr b))]) ::
      map (fun e => Some ("entry", PDict [("hash", e_hash e)]))
        (rev (b_entries b)).
Proof.
  intros (_ & Hblock & Hentries) HI.
  destruct (Hblock _ HI)
    as (v & n' & refs & header & Hrep & HI' & Hlist & Hrefs & Hh & Hprev).
  unfold Factomd.read_chain_block, Factomd.entry_block, bind, lift, ret.
  rewrite (request_replies _ _ _ _ _ _ Hrep), Hlist.
  cbn [py_reversed].
  destruct (entry_lookups_logged self I (rev refs) (rev (b_entries b))
              (Forall2_rev _ _ _ Hrefs)
              (List.Forall_rev Hentries) entries
              (mkState n' (rng s)
                 (trace s ++
                  [EvRequest (url self)
                     (body_of "entry-block"
                        (PDict [("keymr", PStr (b_keymr b))]) 0) (Ok v)]))
              HI')
    as (s1 & evs & Hrun & HI1 & Ht1 & Hcalls).
  rewrite Hrun, Hh, Hprev.
  eexists _, (_ :: evs). split; [reflexivity |]. split; [exact HI1 |]. split.
  - rewrite Ht1. cbn [trace]. rewrite <- app_assoc. reflexivity.
  - cbn [map]. rewrite Hcalls. reflexivity.
Qed.

Lemma chain_lookups_logged self I blocks :
  linked self I blocks ->
  forall fuel entries s,
    I (net s) -> (length blocks <= fuel)%nat ->
    exists s' evs entries',
      Factomd.read_chain_while fuel self (PStr (head_keymr blocks))
        entries s = Some (Ok entries', s') /\
      trace s' = (trace s ++ evs)%list /\
      map ev_call evs =
        flat_map
          (fun b =>
             Some ("entry-block", PDict [("keymr", PStr (b_keymr b))]) ::
             map (fun e => Some ("entry", PDict [("hash", e_hash e)]))
               (rev (b_entries b)))
          blocks.
Proof.
  induction blocks as [| b older IH]; intros Hlinked fuel entries s HI Hfuel.
  - exists s, [], entries. cbn [head_keymr flat_map map]. rewrite app_nil_r.
    split; [destruct fuel; reflexivity |]. split; reflexivity.
  - destruct Hlinked as [Hb Holder].
    destruct fuel as [| fuel]; [cbn in Hfuel; lia |].
    cbn [head_keymr flat_map Factomd.read_chain_while py_ne_str].
    pose proof (proj1 Hb) as Hkey.
    apply String.eqb_neq in Hkey. rewrite Hkey. cbn [negb].
    destruct (block_lookups_logged self I b (head_keymr older) entries s
                Hb HI)
      as (s1 & evs1 & Hrun & HI1 & Ht1 & Hcalls1).
    rewrite Hrun.
    destruct (IH Holder fuel
                (entries ++ map decoded (rev (b_entries b)))%list s1 HI1)
      as (s2 & evs2 & entries' & Hrest & Ht2 & Hcalls2);
      [cbn in Hfuel; lia |].
    exists s2, (evs1 ++ evs2)%list, entries'.
    split; [exact Hrest |]. split.
    + rewrite Ht2, Ht1, app_assoc. reflexivity.
    + rewrite map_app, Hcalls1, Hcalls2. reflexivity.
Qed.

Lemma expected_lookups_length chain_id blocks :
  length (expected_lookups chain_id blocks) =
  S (length blocks + length (chronological blocks)).
Proof.
  unfold expected_lookups, chronological. cbn [length]. f_equal.
  induction blocks as [| b older IH]; [reflexivity |].
  cbn [flat_map length rev]. rewrite length_app, IH.
  rewrite flat_map_app, !length_app. cbn [flat_map length].
  rewrite length_map, length_rev, app_nil_r. lia.
Qed.

(** Reading a chain the node serves, of B blocks and N entries, makes
    exactly 1 + B + N calls, all of which go through: the head lookup,
    then for each block from the newest on its entry-block lookup followed
    by one entry lookup for each of its entries, newest first.  No block
    and no entry is fetched twice. *)
Theorem read_chain_lookup_log self I chain_id blocks fuel s :
  serves_chain self I chain_id blocks ->
  I (net s) ->
  (length blocks <= fuel)%nat ->
  exists r s' evs,
    Factomd.read_chain fuel self chain_id s = Some (r, s') /\
    trace s' = (trace s ++ evs)%list /\
    map ev_call evs = expected_lookups chain_id blocks /\
    length evs = S (length blocks + length (chronological blocks)).
Proof.
  intros [Hhead Hlinked] HI Hfuel.
  destruct (Hhead _ HI) as (v & n' & Hrep & HI' & Hkey).
  unfold Factomd.read_chain, Factomd.chain_head, bind, lift.
  rewrite (request_replies _ _ _ _ _ _ Hrep), Hkey.
  destruct (chain_lookups_logged self I blocks Hlinked fuel []
              (mkState n' (rng s)
                 (trace s ++
                  [EvRequest (url self)
                     (body_of "chain-head" (PDict [("chainid", chain_id)]) 0)
                     (Ok v)]))
              HI' Hfuel)
    as (s' & evs & entries' & Hrun & Ht & Hcalls).
  rewrite Hrun.
  assert (Hexp : map ev_call
                   (EvRequest (url self)
                      (body_of "chain-head" (PDict [("chainid", chain_id)]) 0)
                      (Ok v) :: evs) = expected_lookups chain_id blocks).
  { unfold expected_lookups. cbn [map]. rewrite Hcalls. reflexivity. }
  eexists _, s', (_ :: evs). split; [reflexivity |]. split.
  - rewrite Ht. cbn [trace]. rewrite <- app_assoc. reflexivity.
  - split; [exact Hexp |].
    rewrite <- (length_map ev_call), Hexp. apply expected_lookups_length.
Qed.

Lemma traversal_through self I blocks last :
  linked_to self I blocks last ->
  forall fuel entries s,
    I (net s) ->
    ((fuel < length blocks)%nat ->
     Factomd.read_chain_while fuel self (PStr (key_or last blocks))
       entries s = None) /\
    ((length blocks <= fuel)%nat ->
     exists entries' s',
       I (net s') /\
       Factomd.read_chain_while fuel self (PStr (key_or last blocks))
         entries s =
       Factomd.read_chain_while (fuel - length blocks) self (PStr last)
         entries' s').
Proof.
  induction blocks as [| b older IH]; intros Hlinked fuel entries s HI.
  - split; [cbn; lia |]. intros _. exists entries, s.
    split; [exact HI |]. cbn [key_or length]. rewrite Nat.sub_0_r.
    reflexivity.
  - destruct Hlinked as [Hb Holder].
    pose proof (proj1 Hb) as Hkey. apply String.eqb_neq in Hkey.
    destruct (read_chain_block_served self I b (key_or last older) entries s
                Hb HI) as (s1 & Hrun & HI1).
    destruct fuel as [| fuel];
      cbn [key_or length Factomd.read_chain_while py_ne_str];
      rewrite Hkey; cbn [negb].
    + split; [reflexivity | lia].
    + rewrite Hrun.
      destruct (IH Holder fuel
                  (entries ++ map decoded (rev (b_entries b)))%list s1 HI1)
        as [Hshort Hlong].
      split.
      * intros Hlt. apply Hshort. lia.
      * intros Hle. destruct Hlong as (entries' & s' & HI' & Heq); [lia |].
        exists entries', s'. split; [exact HI' |].
        rewrite Heq. reflexivity.
Qed.

(** [read_chain] has no guard against a chain that loops: when the node
    serves blocks whose [prevkeymr] links lead from the head back to the
    head, the traversal comes to no end, however much fuel it is given. *)
Theorem read_chain_loops_on_a_cycle self I chain_id blocks :
  blocks <> [] ->
  linked_to self I blocks (head_keymr blocks) ->
  (forall n, I n ->
     exists v n',
       replies self n "chain-head" (PDict [("chainid", chain_id)]) v n' /\
       I n' /\
       getitem v "chainhead" = Ok (PStr (head_keymr blocks))) ->
  forall fuel s, I (net s) ->
    Factomd.read_chain fuel self chain_id s = None.
Proof.
  intros Hne Hcycle Hhead.
  assert (Hwhile : forall fuel entries s, I (net s) ->
            Factomd.read_chain_while fuel self (PStr (head_keymr blocks))
              entries s = None).
  { intros fuel. induction (lt_wf fuel) as [fuel _ IH]. intros entries s HI.
    destruct (traversal_through self I blocks _ Hcycle fuel entries s HI)
      as [Hshort Hlong].
    assert (Hkeys : key_or (head_keymr blocks) blocks = head_keymr blocks)
      by (destruct blocks; reflexivity).
    rewrite Hkeys in Hshort, Hlong.
    destruct (Nat.lt_ge_cases fuel (length blocks)) as [Hlt | Hge].
    - apply Hshort, Hlt.
    - destruct (Hlong Hge) as (entries' & s' & HI' & ->).
      apply IH; [| exact HI'].
      destruct blocks; [congruence | cbn in *; lia]. }
  intros fuel s HI.
  destruct (Hhead _ HI) as (v & n' & Hrep & HI' & Hkey).
  unfold Factomd.read_chain, Factomd.chain_head, bind, lift.
  rewrite (request_replies _ _ _ _ _ _ Hrep), Hkey.
  rewrite Hwhile; [reflexivity | exact HI'].
Qed.

End Lookups.

(** ** The further properties on the test double *)

Lemma given_address_is_sent_witness :
  sends (FactomWalletd.add_fee (Demo.walletd 400) (PStr "TX_1") (PStr "FA7"))
    (Demo.start 400 0) "add-fee" "address" (PStr "FA7") /\
  sends (FactomWalletd.new_entry (Demo.walletd 400) (Demo.factomd 400)
           (PStr "c1") (PList [PStr "a"]) (PStr "hello") (PStr "EC7"))
    (Demo.start 400 0) "compose-entry" "ecpub" (PStr "EC7").
Proof.
  pose proof (given_address_is_sent (Demo.walletd 400) (Demo.factomd 400)
                (PStr "FA7") (PStr "TX_1") (PInt 5) (PStr "c1")
                (PList [PStr "a"]) (PStr "hello") (Demo.start 400 0) eq_refl)
    as (_ & _ & _ & Hfee & _).
  pose proof (given_address_is_sent (Demo.walletd 400) (Demo.factomd 400)
                (PStr "EC7") (PStr "TX_1") (PInt 5) (PStr "c1")
                (PList [PStr "a"]) (PStr "hello") (Demo.start 400 0) eq_refl)
    as (_ & _ & _ & _ & _ & Hnew).
  split; [exact Hfee | exact (proj2 (Hnew eq_refl eq_refl))].
Defined.


Lemma new_transaction_generates_name_witness :
  exists suffix,
    String.length suffix = 6%nat /\
    sends (FactomWalletd.new_transaction (Demo.walletd 400) PNone)
      (Demo.start 400 3) "new-transaction" "tx-name"
      (PStr ("TX_" ++ suffix)).
Proof.
  exact (new_transaction_generates_name (Demo.walletd 400) PNone
           (Demo.start 400 3) eq_refl demo_rng_in_range).
Defined.

Lemma encoding_error_before_any_call_witness :
  FactomWalletd.new_chain (Demo.walletd 400) (Demo.factomd 400)
    (PList [PStr "a"]) (PInt 5) PNone (Demo.start 400 0) =
    (Raise (TypeError "hex"), Demo.start 400 0).
Proof.
  apply (encoding_error_before_any_call (Demo.walletd 400) (Demo.factomd 400)
           (PStr "c1") (PList [PStr "a"]) (PInt 5) PNone (Demo.start 400 0)
           (TypeError "hex")).
  right. split; reflexivity.
Defined.

Lemma creation_success_log_witness :
  exists calls receipt,
    emits (FactomWalletd.new_entry (Demo.walletd 400) (Demo.factomd 400)
             (PStr "c1") (PList [PStr "a"]) (PStr "hello") PNone)
      (Demo.start 400 0)
      [EvRequest "http://localhost:8089/v2"
         (body_of "compose-entry"
            (PDict [("entry",
                     PDict [("chainid", PStr "c1");
                            ("extids", PList [PStr "61"]);
                            ("content", PStr "68656c6c6f")]);
                    ("ecpub", PStr "EC1")]) 0)
         (Ok calls);
       EvRequest "http://localhost:8088/v2"
         (body_of "commit-entry" (PDict [("message", PStr "00c0ffee")]) 0)
         (Ok receipt);
       EvSleep 2;
       EvRequest "http://localhost:8088/v2"
         (body_of "reveal-entry" (PDict [("entry", PStr "00feed")]) 0)
         (Ok (PDict [("message", PStr "Entry Reveal Success")]))].
Proof.
  destruct (proj2 (creation_success_log (Demo.walletd 400) (Demo.factomd 400)
                     (PStr "c1") (PList [PStr "a"]) (PStr "hello") PNone
                     (Demo.start 400 0)
                     (PDict [("message", PStr "Entry Reveal Success")]))
              eq_refl)
    as (x & c & calls & message & entry & receipt & Hx & Hc & Hlog & Hm & He).
  vm_compute in Hx. injection Hx as <-.
  vm_compute in Hc. injection Hc as <-.
  exists calls, receipt.
  assert (Hcalls : fst (_request (Demo.walletd 400) "compose-entry"
                     (PDict [("entry",
                              PDict [("chainid", PStr "c1");
                                     ("extids", PList [PStr "61"]);
                                     ("content", PStr "68656c6c6f")]);
                             ("ecpub", PStr "EC1")]) 0 (Demo.start 400 0)) =
                   Ok calls).
  { unfold emits in Hlog. vm_compute in Hlog. injection Hlog as <- _ _ _.
    reflexivity. }
  vm_compute in Hcalls. injection Hcalls as <-.
  vm_compute in Hm. injection Hm as <-.
  vm_compute in He. injection He as <-.
  exact Hlog.
Defined.

Lemma transfer_submits_composed_witness :
  exists pre data call tx,
    emits (FactomWalletd.fct_to_ec (Demo.walletd 400) (Demo.factomd 400)
             (PInt 5) PNone PNone) (Demo.start 400 3)
      (pre ++ [EvRequest "http://localhost:8089/v2" data (Ok call);
               EvRequest "http://localhost:8088/v2"
                 (body_of "factoid-submit" (PDict [("transaction", tx)]) 0)
                 (Ok (PDict [("message", PStr "Successfully submitted")]))]) /\
    length pre = 5%nat /\
    ev_method (EvRequest "http://localhost:8089/v2" data (Ok call)) =
      Some "compose-transaction" /\
    getpath call ["params"; "transaction"] = Ok tx /\
    Forall (fun e => ev_url e = Some "http://localhost:8089/v2") pre.
Proof.
  exact (proj1 (transfer_submits_composed (Demo.walletd 400)
                  (Demo.factomd 400) (PInt 5) PNone PNone (Demo.start 400 3)
                  (PDict [("message", PStr "Successfully submitted")]))
           eq_refl).
Defined.

Lemma run_of_came_to_end {A B} (o : option (A * B)) d :
  came_to_end o = true -> o = Some (fst (run_of o d), snd (run_of o d)).
Proof. destruct o as [[a b] |]; cbn; [reflexivity | discriminate]. Defined.

Lemma read_chain_stops_at_first_failure_witness :
  exists evs,
    trace (snd demo_read_unknown) = (trace (Demo.start 400 0) ++ evs)%list /\
    stops_at_failure (fst demo_read_unknown) evs.
Proof.
  apply (read_chain_stops_at_first_failure (Demo.factomd 400) 2 (PStr "c9")
           (Demo.start 400 0) (fst demo_read_unknown)
           (snd demo_read_unknown)).
  unfold demo_read_unknown.
  apply run_of_came_to_end. vm_compute. reflexivity.
Defined.

Lemma read_chain_only_looks_up_witness :
  exists evs,
    trace (read_chain_upto 3 loop_node (PStr "c1")
             (mkState (tt : Net loop_env) (tt : RNG loop_env) [])) = evs /\
    Forall (lookup_of loop_node) evs.
Proof.
  destruct (proj1 (read_chain_only_looks_up loop_node 3 (PStr "c1")
                     (mkState (tt : Net loop_env) (tt : RNG loop_env) [])))
    as (evs & Ht & Hall & _).
  exists evs. split; [exact Ht | exact Hall].
Defined.


(** On a wallet that composes no reveal part, [new_chain] sends the
    commit and waits before it fails. *)
Example new_chain_without_reveal_part :
  let run := FactomWalletd.new_chain half_wallet half_node (PList [PStr "a"])
               (PStr "hello") PNone
               (mkState (tt : Net half_env) (tt : RNG half_env) []) in
  map ev_method (trace (snd run)) =
    [Some "compose-chain"; Some "commit-chain"; None] /\
  trace (snd run) !! 2%nat = Some (EvSleep 2) /\
  fst run = Raise (KeyError "reveal").
Proof. vm_compute. repeat split; reflexivity. Qed.

Lemma read_chain_lookup_log_witness :
  exists r s' evs,
    Factomd.read_chain 2 (Demo.factomd 400) (PStr "c1") (Demo.start 400 0) =
      Some (r, s') /\
    trace s' = evs /\
    map ev_call evs = expected_lookups (PStr "c1") demo_blocks /\
    length evs = 7%nat.
Proof.
  exact (read_chain_lookup_log (Demo.factomd 400) (fun _ => True)
           (PStr "c1") demo_blocks 2 (Demo.start 400 0)
           demo_serves_chain I (le_n 2)).
Defined.

Lemma loop_node_links_to_itself :
  linked_to loop_node (fun _ => True) [mkBlock Demo.keymr1 []] Demo.keymr1.
Proof.
  split; [| exact I].
  split; [discriminate |]. split; [| constructor].
  intros n _. eexists _, n, [], _.
  split; [eexists _, _; repeat split; reflexivity |].
  repeat split; try reflexivity. constructor.
Defined.

Lemma read_chain_loops_on_a_cycle_witness :
  Factomd.read_chain 1000 loop_node (PStr "c1")
    (mkState (tt : Net loop_env) (tt : RNG loop_env) []) = None.
Proof.
  apply (read_chain_loops_on_a_cycle loop_node (fun _ => True) (PStr "c1")
           [mkBlock Demo.keymr1 []]).
  - discriminate.
  - exact loop_node_links_to_itself.
  - intros n _. eexists _, n.
    split; [eexists _, _; repeat split; reflexivity |].
    repeat split; reflexivity.
  - exact I.
Defined.
